(** * DocFlow: the current-user profile hooks ([src/hooks/useUserQuery.ts])

    A shallow embedding of the three hooks of [useUserQuery.ts]
    ([useUserQuery], [useUpdateUserMutation], [useLogoutMutation]) and of
    [getLocalUserData], over an explicit world made of the query cache, the
    browser's [localStorage], the page location, the toasts shown and the
    console.  JavaScript objects used as records are finite maps from field
    names to values; callbacks are written in a small state-and-exception
    monad so that they read line by line like the TypeScript. *)

From stdpp Require Import gmap strings list fin_maps pretty.
From Stdlib Require Import ZArith Ascii.

Open Scope string_scope.
Open Scope Z_scope.

(** ** JavaScript data *)

(** The value of one profile field. *)
Inductive JsValue : Type :=
| JUndefined
| JNull
| JBool (b : bool)
| JNum (n : Z)
| JStr (s : string).

#[global] Instance JsValue_eq_dec : EqDecision JsValue.
Proof. solve_decision. Defined.

(** [User] (and [Partial<User>]): an object, as a map from field name to value. *)
Abbreviation User := (gmap string JsValue).

(** What [JSON.parse] can give back: a scalar or an object. *)
Inductive Json : Type :=
| JsonScalar (v : JsValue)
| JsonObject (o : User).

(** Thrown values. *)
Inductive JsError : Type :=
| Error (message : string)
| ReferenceError (message : string)
| SyntaxError (message : string).

(** A promise that has settled. *)
Inductive Settled (A : Type) : Type :=
| Resolved (value : A)
| Rejected (reason : JsError).
Arguments Resolved {A} value.
Arguments Rejected {A} reason.

(** [authApi.getCurrentUser()] resolves to [{ data, error }], the profile being
    [data.data]. *)
Record ApiBody : Type := mkApiBody { data_data : option User }.
Record ApiResult : Type := mkApiResult {
  data : option ApiBody;
  error : option string
}.

(** What [authApi.logout()] and [UserApi.updateUser(updates)] resolve to; the
    hooks hand it on without looking at it. *)
Record ApiReply : Type := mkApiReply { reply_error : option string }.

(** ** The world *)

Abbreviation QueryKey := (list string).

(** Modelled from the spec: one entry of the query cache, which belongs to the
    query library ([@tanstack/react-query], not part of the sources).  Of the
    Cache Entry of the data model (3) it keeps the payload, the last-fetched
    time, the invalidated mark and the fetch-in-flight flag. *)
Record QueryState : Type := mkQueryState {
  state_data : option User;
  dataUpdatedAt : Z;
  isInvalidated : bool;
  isFetching : bool
}.

Inductive Toast : Type :=
| toast_success (message : string)
| toast_error (message : string).

Inductive ConsoleLine : Type :=
| console_warn (message : string) (err : JsError)
| console_error (message : string) (err : JsError).

Record World : Type := mkWorld {
  window : bool;                           (* typeof window !== 'undefined' *)
  queryCache : gmap QueryKey QueryState;
  localStorage : gmap string string;
  location_href : string;
  toasts : list Toast;
  console : list ConsoleLine;
  clock : Z                                (* Date.now() *)
}.

Definition with_queryCache (f : gmap QueryKey QueryState -> gmap QueryKey QueryState)
    (w : World) : World :=
  mkWorld (window w) (f (queryCache w)) (localStorage w) (location_href w)
          (toasts w) (console w) (clock w).

Definition with_localStorage (f : gmap string string -> gmap string string)
    (w : World) : World :=
  mkWorld (window w) (queryCache w) (f (localStorage w)) (location_href w)
          (toasts w) (console w) (clock w).

Definition with_location_href (href : string) (w : World) : World :=
  mkWorld (window w) (queryCache w) (localStorage w) href
          (toasts w) (console w) (clock w).

Definition with_toast (t : Toast) (w : World) : World :=
  mkWorld (window w) (queryCache w) (localStorage w) (location_href w)
          (toasts w ++ [t]) (console w) (clock w).

Definition with_console (c : ConsoleLine) (w : World) : World :=
  mkWorld (window w) (queryCache w) (localStorage w) (location_href w)
          (toasts w) (console w ++ [c]) (clock w).

(** ** Statements: state and exceptions *)

Inductive Completion (A : Type) : Type :=
| Normal (a : A)
| Throw (e : JsError).
Arguments Normal {A} a.
Arguments Throw {A} e.

Definition JS (A : Type) : Type := World -> Completion A * World.

Definition ret {A} (a : A) : JS A := fun w => (Normal a, w).

Definition bind {A B} (m : JS A) (k : A -> JS B) : JS B :=
  fun w =>
    match m w with
    | (Normal a, w') => k a w'
    | (Throw e, w') => (Throw e, w')
    end.

Definition throw {A} (e : JsError) : JS A := fun w => (Throw e, w).

Definition try_catch {A} (m : JS A) (handler : JsError -> JS A) : JS A :=
  fun w =>
    match m w with
    | (Normal a, w') => (Normal a, w')
    | (Throw e, w') => handler e w'
    end.

Definition effect (f : World -> World) : JS unit := fun w => (Normal tt, f w).

Definition when (b : bool) (m : JS unit) : JS unit := if b then m else ret tt.

(** [await p] for a promise that settles as [p]. *)
Definition await {A} (p : Settled A) : JS A :=
  match p with
  | Resolved a => ret a
  | Rejected e => throw e
  end.

Declare Scope js_scope.
Delimit Scope js_scope with js.
Notation "x <- m ;; k" := (bind m (fun x => k))
  (at level 100, m at next level, k at level 200, right associativity) : js_scope.
Notation "m ;; k" := (bind m (fun _ => k))
  (at level 100, k at level 200, right associativity) : js_scope.

Definition completion {A} (r : Completion A * World) : Completion A := fst r.
Definition world_after {A} (r : Completion A * World) : World := snd r.

(** ** The browser *)

Definition typeof_window_defined : JS bool := fun w => (Normal (window w), w).

Definition localStorage_getItem (key : string) : JS (option string) :=
  fun w => (Normal (localStorage w !! key), w).

Definition localStorage_setItem (key value : string) : JS unit :=
  effect (with_localStorage (insert key value)).

Definition localStorage_removeItem (key : string) : JS unit :=
  effect (with_localStorage (delete key)).

(** [window.location.href = href]; naming [window] where there is none throws. *)
Definition set_window_location_href (href : string) : JS unit :=
  fun w =>
    if window w then (Normal tt, with_location_href href w)
    else (Throw (ReferenceError "window is not defined"), w).

Definition toast (t : Toast) : JS unit := effect (with_toast t).
Definition console_log (c : ConsoleLine) : JS unit := effect (with_console c).

(** Truthiness of a [string | null]: [null] and the empty string are falsy. *)
Definition truthy (s : option string) : bool :=
  match s with
  | Some s => negb (String.eqb s "")
  | None => false
  end.

(** [s || fallback] on strings. *)
Definition or_else (s : option string) (fallback : string) : string :=
  match s with
  | Some s => if String.eqb s "" then fallback else s
  | None => fallback
  end.

(** [JSON.stringify] on a profile and [JSON.parse] on a stored text ([None]:
    it throws a [SyntaxError]).  The hooks only rely on the text of a profile
    being whatever [JSON.stringify] makes it; the one fact of [JSON.parse]
    used below is that it rejects the empty text. *)
Class JSON : Type := {
  JSON_stringify : User -> string;
  JSON_parse : string -> option Json;
  JSON_parse_empty : JSON_parse "" = None
}.

(** ** The query client *)

(** The client that [useQueryClient()] returns belongs to the query library;
    its operations follow the Resource Cache contract (4.1). *)

(** Modelled from the spec: [queryClient.getQueryData], the library's [get]:
    the payload of the entry, non-blocking. *)
Definition getQueryData (key : QueryKey) : JS (option User) :=
  fun w => (Normal (queryCache w !! key ≫= state_data), w).

(** Modelled from the spec: what the library's [set] makes of an entry: the
    payload is replaced, the last-fetched time reset, the invalidated mark
    cleared. *)
Definition setData (now : Z) (payload : User) (old : option QueryState) : QueryState :=
  mkQueryState (Some payload) now false (from_option isFetching false old).

(** Modelled from the spec: [queryClient.setQueryData], the library's [set]. *)
Definition setQueryData (key : QueryKey) (payload : User) : JS unit :=
  effect (fun w =>
    with_queryCache (fun c => <[key := setData (clock w) payload (c !! key)]> c) w).

(** Modelled from the spec: the library's [invalidate] on an entry: marked,
    the payload kept. *)
Definition invalidate (q : QueryState) : QueryState :=
  mkQueryState (state_data q) (dataUpdatedAt q) true (isFetching q).

(** Modelled from the spec: [queryClient.invalidateQueries], the library's
    [invalidate]: marks the entry of the key, if present. *)
Definition invalidateQueries (key : QueryKey) : JS unit :=
  effect (with_queryCache (alter invalidate key)).

(** Modelled from the spec: the library's cancellation on an entry: the fetch
    in flight is dropped. *)
Definition cancel (q : QueryState) : QueryState :=
  mkQueryState (state_data q) (dataUpdatedAt q) (isInvalidated q) false.

(** Modelled from the spec: [queryClient.cancelQueries]: cancels the in-flight
    read fetch of the key (4.3, Begin). *)
Definition cancelQueries (key : QueryKey) : JS unit :=
  effect (with_queryCache (alter cancel key)).

(** Modelled from the spec: [queryClient.removeQueries], the library's
    [remove]: deletes every entry whose key starts with the prefix. *)
Definition removeQueries (keyPrefix : QueryKey) : JS unit :=
  effect (with_queryCache
    (filter (fun kq : QueryKey * QueryState => ¬ keyPrefix `prefix_of` kq.1))).

(** Modelled from the spec: the options [useMutation] takes; the hook itself
    belongs to the query library. *)
Record MutationOptions (V D C : Type) : Type := mkMutationOptions {
  mutationFn : V -> Settled D -> JS D;
  onMutate : V -> JS C;
  onError : JsError -> V -> option C -> JS unit;
  onSuccess : D -> V -> C -> JS unit
}.
Arguments mkMutationOptions {V D C}.
Arguments mutationFn {V D C}.
Arguments onMutate {V D C}.
Arguments onError {V D C}.
Arguments onSuccess {V D C}.

(** Modelled from the spec: the mutation runner behind [useMutation], which
    belongs to the query library.  It follows the state machine of the
    optimistic write protocol (4.3): Begin and Apply ([onMutate]), Commit
    ([mutationFn], which awaits the remote call), then Reconcile ([onSuccess])
    when the call succeeded, or Rollback ([onError], with the context that
    [onMutate] returned) when anything failed; a failure is then surfaced to
    the caller. *)
Definition execute {V D C} (m : MutationOptions V D C) (variables : V)
    (reply : Settled D) : JS D :=
  fun w =>
    match onMutate m variables w with
    | (Throw e, w1) => (onError m e variables None ;; throw e)%js w1
    | (Normal context, w1) =>
        try_catch
          (d <- mutationFn m variables reply ;;
           onSuccess m d variables context ;;
           ret d)%js
          (fun e => onError m e variables (Some context) ;; throw e)%js
          w1
    end.

(** ** [useUserQuery.ts] *)

Definition userQueryKeys_user : QueryKey := ["user"].
Definition userQueryKeys_profile : QueryKey := userQueryKeys_user ++ ["profile"].

Record QueryOptions : Type := mkQueryOptions {
  staleTime : Z;                 (* milliseconds *)
  gcTime : Z;                    (* milliseconds *)
  refetchOnWindowFocus : bool;
  retry : nat
}.

Record UpdateContext : Type := mkUpdateContext { previousUser : option User }.

Section Hooks.
Context `{JSON}.
Open Scope js_scope.

(** [useUserQuery]: the options handed to [useQuery] with the fetcher. *)
Definition useUserQuery_options : QueryOptions :=
  {| staleTime := 5 * 60 * 1000;
     gcTime := 30 * 60 * 1000;
     refetchOnWindowFocus := false;
     retry := 3 |}.

(** [queryFn]; [reply] is how [authApi.getCurrentUser()] settles. *)
Definition queryFn (reply : Settled ApiResult) : JS User :=
  r <- await reply ;;
  match truthy (error r), data r with
  | false, Some (mkApiBody (Some user)) =>
      b <- typeof_window_defined ;;
      when b (localStorage_setItem "user_profile" (JSON_stringify user)) ;;
      ret user
  | _, _ => throw (Error (or_else (error r) "获取用户信息失败"))
  end.

Definition JSON_parse_or_throw (text : string) : JS Json :=
  match JSON_parse text with
  | Some v => ret v
  | None => throw (SyntaxError "JSON.parse: unexpected token")
  end.

(** [getLocalUserData]; [None] is [undefined]. *)
Definition getLocalUserData : JS (option Json) :=
  b <- typeof_window_defined ;;
  if negb b then ret None
  else
    try_catch
      (cachedUser <- localStorage_getItem "user_profile" ;;
       match cachedUser with
       | Some text =>
           if truthy (Some text)
           then v <- JSON_parse_or_throw text ;; ret (Some v)
           else ret None
       | None => ret None
       end)
      (fun error =>
         console_log (console_warn "解析本地用户数据失败:" error) ;;
         ret None).

(** [useUpdateUserMutation] *)
Definition update_mutationFn (updates : User) (reply : Settled ApiReply) : JS ApiReply :=
  await reply.

Definition update_onMutate (updates : User) : JS UpdateContext :=
  cancelQueries userQueryKeys_profile ;;
  previousUser <- getQueryData userQueryKeys_profile ;;
  match previousUser with
  | Some p => setQueryData userQueryKeys_profile (updates ∪ p)
  | None => ret tt
  end ;;
  ret {| previousUser := previousUser |}.

(** [onMutate] is an [async] function whose first statement awaits
    [cancelQueries]: the call runs up to that [await] and hands control back;
    the rest runs when the awaited promise has settled. *)
Definition update_onMutate_until_await (updates : User) : JS unit :=
  cancelQueries userQueryKeys_profile.

Definition update_onMutate_after_await (updates : User) : JS UpdateContext :=
  previousUser <- getQueryData userQueryKeys_profile ;;
  match previousUser with
  | Some p => setQueryData userQueryKeys_profile (updates ∪ p)
  | None => ret tt
  end ;;
  ret {| previousUser := previousUser |}.

Definition update_onError (error : JsError) (variables : User)
    (context : option UpdateContext) : JS unit :=
  match context ≫= previousUser with
  | Some p => setQueryData userQueryKeys_profile p
  | None => ret tt
  end ;;
  console_log (console_error "更新用户信息失败:" error) ;;
  toast (toast_error "更新失败，请重试").

Definition update_onSuccess (data : ApiReply) (variables : User)
    (context : UpdateContext) : JS unit :=
  invalidateQueries userQueryKeys_profile ;;
  currentUser <- getQueryData userQueryKeys_profile ;;
  b <- typeof_window_defined ;;
  match currentUser with
  | Some u => when b (localStorage_setItem "user_profile" (JSON_stringify u))
  | None => ret tt
  end ;;
  let updatedFieldsCount := size variables in
  toast (toast_success ("已更新 " +:+ pretty updatedFieldsCount +:+ " 个字段")).

Definition useUpdateUserMutation : MutationOptions User ApiReply UpdateContext :=
  mkMutationOptions update_mutationFn update_onMutate update_onError update_onSuccess.

(** [useLogoutMutation] *)
Definition logout_mutationFn (_ : unit) (reply : Settled ApiReply) : JS ApiReply :=
  await reply.

Definition logout_onSuccess (data : ApiReply) (variables : unit) (context : unit) : JS unit :=
  removeQueries userQueryKeys_user ;;
  b <- typeof_window_defined ;;
  when b
    (localStorage_removeItem "user_profile" ;;
     localStorage_removeItem "auth_token" ;;
     localStorage_removeItem "refresh_token" ;;
     localStorage_removeItem "expires_in" ;;
     localStorage_removeItem "refresh_expires_in") ;;
  toast (toast_success "已成功退出登录") ;;
  set_window_location_href "/auth".

Definition logout_onError (error : JsError) (variables : unit) (context : option unit)
    : JS unit :=
  console_log (console_error "退出登录失败:" error) ;;
  toast (toast_error "退出登录失败").

Definition useLogoutMutation : MutationOptions unit ApiReply unit :=
  mkMutationOptions logout_mutationFn (fun _ => ret tt) logout_onError logout_onSuccess.

(** ** The read path *)

(** What [useQuery] does with the fetcher and the options belongs to the query
    library; the definitions below follow [read(key, fetcher, {staleTime,
    expireTime})] of the Resource Cache contract (4.1), with [gcTime] as the
    expiry threshold.  The retry policy wraps the fetcher and is no part of
    this layer. *)

(** Modelled from the spec: steps (1) and (4) of [read]: an entry is servable
    when it is not invalidated, younger than [staleTime] and not as old as
    the expiry threshold. *)
Definition fresh (opts : QueryOptions) (now : Z) (q : QueryState) : bool :=
  negb (isInvalidated q)
  && bool_decide (now - dataUpdatedAt q < staleTime opts)
  && negb (bool_decide (gcTime opts <= now - dataUpdatedAt q)).

(** Modelled from the spec: the payload that step (1) of [read] serves from
    the cache, if any. *)
Definition cached (opts : QueryOptions) (key : QueryKey) (w : World) : option User :=
  q ← queryCache w !! key;
  if fresh opts (clock w) q then state_data q else None.

(** Modelled from the spec: the fetch-in-flight flag of the key. *)
Definition inFlight (key : QueryKey) (w : World) : bool :=
  from_option isFetching false (queryCache w !! key).

(** Modelled from the spec: setting the fetch-in-flight flag of an entry; a
    key that has no entry yet gets one without payload. *)
Definition setFetching (b : bool) (q : option QueryState) : QueryState :=
  match q with
  | Some q => mkQueryState (state_data q) (dataUpdatedAt q) (isInvalidated q) b
  | None => mkQueryState None 0 false b
  end.

(** Modelled from the spec: step (3) of [read], mark and clear in-flight. *)
Definition markFetching (key : QueryKey) (b : bool) (w : World) : World :=
  with_queryCache (fun c => <[key := setFetching b (c !! key)]> c) w.

(** Modelled from the spec: the reads of one key in the single-threaded,
    event-driven model (5): the world, the reads suspended on the fetch in
    flight, the number of fetches started and what the finished reads got. *)
Record Reads : Type := mkReads {
  reads_world : World;
  awaiting : list nat;                       (* reads waiting for the fetch in flight *)
  fetcherCalls : nat;                        (* fetches started so far *)
  delivered : list (nat * Completion User)   (* what each finished read got *)
}.

(** Modelled from the spec: what can happen between suspensions. *)
Inductive ReadEvent : Type :=
| Read (reader : nat)                        (* a caller issues a profile read *)
| Tick (ms : Z)                              (* time passes *)
| FetchSettles (reply : Settled ApiResult).  (* the remote call of the fetch returns *)

(** Modelled from the spec: the clock that [now - lastFetched] is read from. *)
Definition advance (ms : Z) (w : World) : World :=
  mkWorld (window w) (queryCache w) (localStorage w) (location_href w)
          (toasts w) (console w) (clock w + ms).

(** Modelled from the spec: [read], step by step.  A read is served from the
    cache (1), or joins the fetch in flight (2), or marks the key and starts
    the fetcher (3); when the remote call settles the fetcher - the
    [queryFn] of the sources - runs to its end: on success its result is [set]
    and handed to every waiting read, on failure the error is, the cache being
    left as it was. *)
Definition read_step (opts : QueryOptions) (key : QueryKey) (ev : ReadEvent)
    (st : Reads) : Reads :=
  let w := reads_world st in
  match ev with
  | Read r =>
      match cached opts key w with
      | Some payload =>
          mkReads w (awaiting st) (fetcherCalls st) (delivered st ++ [(r, Normal payload)])
      | None =>
          if inFlight key w
          then mkReads w (awaiting st ++ [r]) (fetcherCalls st) (delivered st)
          else mkReads (markFetching key true w) (awaiting st ++ [r])
                       (S (fetcherCalls st)) (delivered st)
      end
  | Tick ms => mkReads (advance ms w) (awaiting st) (fetcherCalls st) (delivered st)
  | FetchSettles reply =>
      if inFlight key w
      then
        match queryFn reply w with
        | (Normal payload, w') =>
            mkReads (markFetching key false
                       (world_after (setQueryData key payload w')))
                    [] (fetcherCalls st)
                    (delivered st ++ map (fun r => (r, Normal payload)) (awaiting st))
        | (Throw e, w') =>
            mkReads (markFetching key false w') [] (fetcherCalls st)
                    (delivered st ++ map (fun r => (r, Throw e)) (awaiting st))
        end
      else st
  end.

(** Modelled from the spec: a sequence of events, in order. *)
Definition run_reads (opts : QueryOptions) (key : QueryKey) (evs : list ReadEvent)
    (st : Reads) : Reads :=
  fold_left (fun st ev => read_step opts key ev st) evs st.

(** Modelled from the spec: no read has been issued yet. *)
Definition idle (w : World) : Reads := mkReads w [] 0 [].

End Hooks.

(** ** A JSON codec to run the hooks with

    A printer and a reader for flat profiles: objects whose fields are
    [null], booleans, integers and strings of printable characters, with the
    quote and the backslash escaped.  It instantiates [JSON] wherever a concrete run is evaluated; the
    theorems hold for any instance. *)

Definition dquote : ascii := "034"%char.
Definition backslash : ascii := "092"%char.

Fixpoint escape (s : string) : string :=
  match s with
  | EmptyString => EmptyString
  | String c r =>
      if Ascii.eqb c dquote || Ascii.eqb c backslash
      then String backslash (String c (escape r))
      else String c (escape r)
  end.

Definition quoted (s : string) : string :=
  String dquote (escape s +:+ String dquote EmptyString).

(** [None]: [JSON.stringify] leaves a field that is [undefined] out. *)
Definition stringify_value (v : JsValue) : option string :=
  match v with
  | JUndefined => None
  | JNull => Some "null"
  | JBool true => Some "true"
  | JBool false => Some "false"
  | JNum n => Some (pretty n)
  | JStr s => Some (quoted s)
  end.

Definition stringify_field (kv : string * JsValue) : option string :=
  text ← stringify_value kv.2; Some (quoted kv.1 +:+ ":" +:+ text).

Definition flat_stringify (u : User) : string :=
  "{" +:+ String.concat "," (omap stringify_field (map_to_list u)) +:+ "}".

Definition is_space (c : ascii) : bool :=
  Ascii.eqb c " " || Ascii.eqb c "009" || Ascii.eqb c "010" || Ascii.eqb c "013".

Fixpoint skip_space (s : string) : string :=
  match s with
  | String c r => if is_space c then skip_space r else s
  | EmptyString => EmptyString
  end.

(** The rest of a string literal, after its opening quote. *)
Fixpoint read_string (acc s : string) : option (string * string) :=
  match s with
  | EmptyString => None
  | String c r =>
      if Ascii.eqb c dquote then Some (acc, r)
      else if Ascii.eqb c backslash then
        match r with
        | String e r' =>
            if Ascii.eqb e dquote || Ascii.eqb e backslash || Ascii.eqb e "/"
            then read_string (acc +:+ String e EmptyString) r'
            else None
        | EmptyString => None
        end
      else read_string (acc +:+ String c EmptyString) r
  end.

Definition is_digit (c : ascii) : bool :=
  bool_decide (48 <= Z.of_nat (nat_of_ascii c) <= 57).

Definition digit_of (c : ascii) : option Z :=
  if is_digit c then Some (Z.of_nat (nat_of_ascii c) - 48) else None.

Fixpoint read_digits (acc : Z) (s : string) : Z * string :=
  match s with
  | String c r =>
      match digit_of c with
      | Some d => read_digits (10 * acc + d) r
      | None => (acc, s)
      end
  | EmptyString => (acc, s)
  end.

(** An integer literal: no leading zero but for [0] itself. *)
Definition read_natural (s : string) : option (Z * string) :=
  match s with
  | String c r =>
      match digit_of c with
      | Some 0 =>
          match r with
          | String c' _ => if is_digit c' then None else Some (0, r)
          | EmptyString => Some (0, r)
          end
      | Some d => Some (read_digits d r)
      | None => None
      end
  | EmptyString => None
  end.

Fixpoint strip (word s : string) : option string :=
  match word, s with
  | EmptyString, _ => Some s
  | String a word', String b s' => if Ascii.eqb a b then strip word' s' else None
  | String _ _, EmptyString => None
  end.

Definition read_scalar (s : string) : option (JsValue * string) :=
  match s with
  | String c r =>
      if Ascii.eqb c dquote then '(t, rest) ← read_string "" r; Some (JStr t, rest)
      else if Ascii.eqb c "-" then '(n, rest) ← read_natural r; Some (JNum (- n), rest)
      else if is_digit c then '(n, rest) ← read_natural s; Some (JNum n, rest)
      else
        match strip "null" s, strip "true" s, strip "false" s with
        | Some rest, _, _ => Some (JNull, rest)
        | _, Some rest, _ => Some (JBool true, rest)
        | _, _, Some rest => Some (JBool false, rest)
        | _, _, _ => None
        end
  | EmptyString => None
  end.

(** The members of an object, after [{] or a comma. *)
Fixpoint read_members (fuel : nat) (acc : User) (s : string) : option (User * string) :=
  match fuel with
  | O => None
  | S fuel =>
      rest ← strip (String dquote EmptyString) (skip_space s);
      '(k, rest) ← read_string "" rest;
      rest ← strip ":" (skip_space rest);
      '(v, rest) ← read_scalar (skip_space rest);
      match skip_space rest with
      | String c rest' =>
          if Ascii.eqb c "," then read_members fuel (<[k := v]> acc) rest'
          else if Ascii.eqb c "}" then Some (<[k := v]> acc, rest')
          else None
      | EmptyString => None
      end
  end.

Definition read_json (s : string) : option (Json * string) :=
  match s with
  | String c r =>
      if Ascii.eqb c "{" then
        match skip_space r with
        | String c' r' =>
            if Ascii.eqb c' "}" then Some (JsonObject ∅, r')
            else '(o, rest) ← read_members (String.length r) ∅ r; Some (JsonObject o, rest)
        | EmptyString => None
        end
      else '(v, rest) ← read_scalar s; Some (JsonScalar v, rest)
  | EmptyString => None
  end.

Definition flat_parse (s : string) : option Json :=
  '(v, rest) ← read_json (skip_space s);
  match skip_space rest with
  | EmptyString => Some v
  | String _ _ => None
  end.

Definition flat_JSON : JSON :=
  {| JSON_stringify := flat_stringify;
     JSON_parse := flat_parse;
     JSON_parse_empty := eq_refl |}.

(** ** Sample data *)

Definition bob : User :=
  <["name" := JStr "Bob"]> (<["email" := JStr "b@x.com"]> ∅).

Definition alice_update : User := <["name" := JStr "Alice"]> ∅.

Definition bob_entry : QueryState := mkQueryState (Some bob) 1000 false false.

(** A browser tab with nothing cached and nothing stored. *)
Definition cold_start : World := mkWorld true ∅ ∅ "/docs" [] [] 5000.

(** A browser tab of a signed-in user: the profile is cached and mirrored and
    the session tokens are stored. *)
Definition signed_in : World :=
  mkWorld true
    (<[userQueryKeys_profile := bob_entry]> ∅)
    (<["user_profile" := flat_stringify bob]>
       (<["auth_token" := "token"]>
          (<["refresh_token" := "refresh"]>
             (<["expires_in" := "3600"]>
                (<["refresh_expires_in" := "86400"]> ∅)))))
    "/docs" [] [] 5000.

(** ** Worlds the proofs name *)

(** Milliseconds in [n] minutes. *)
Definition minutes (n : Z) : Z := n * 60000.

(** A tab whose mirror holds [text]. *)
Definition mirror_holds (text : string) : World :=
  with_localStorage (insert "user_profile" text) (mkWorld true ∅ ∅ "/docs" [] [] 5000).

(** The tab of the signed-in user with more in it: a cached document list and
    a stored theme, neither of them session data. *)
Definition documents_entry : QueryState :=
  mkQueryState (Some (<["count" := JNum 3]> ∅)) 2000 false false.

Definition signed_in_with_more : World :=
  with_localStorage (insert "theme" "dark")
    (with_queryCache (insert ["documents"] documents_entry) signed_in).

(** The hooks run where there is no [window]; a profile is cached and a token
    is stored all the same. *)
Definition no_window : World :=
  mkWorld false
    (<[userQueryKeys_profile := bob_entry]> ∅)
    (<["auth_token" := "token"]> ∅)
    "" [] [] 5000.

(** What a logout does once the remote call has resolved, in a browser. *)
Definition logged_out (w : World) : World :=
  with_location_href "/auth"
    (with_toast (toast_success "已成功退出登录")
       (with_localStorage
          (fun s => delete "refresh_expires_in" (delete "expires_in"
             (delete "refresh_token" (delete "auth_token" (delete "user_profile" s)))))
          (with_queryCache
             (filter (fun kq : QueryKey * QueryState =>
                        ¬ userQueryKeys_user `prefix_of` kq.1)) w))).

(** Unfolds the statement layer down to functions on worlds. *)
Ltac js_unfold :=
  unfold typeof_window_defined, set_window_location_href, toast, console_log,
    localStorage_getItem, localStorage_setItem, localStorage_removeItem,
    getQueryData, setQueryData, invalidateQueries, cancelQueries, removeQueries in *;
  unfold execute, try_catch, bind, ret, throw, effect, when, await,
    completion, world_after in *.

(** Reads a field of a world that was built by the [with_] functions. *)
Ltac world_simpl :=
  cbn [fst snd window queryCache localStorage location_href toasts console clock
       with_queryCache with_localStorage with_location_href with_toast with_console] in *.

(** * Properties *)

(** ** Teardown *)

Lemma logout_resolved_run (w : World) (r : ApiReply) :
  window w = true ->
  execute useLogoutMutation tt (Resolved r) w = (Normal r, logged_out w).
Proof.
  intros Hw. unfold useLogoutMutation, logout_onSuccess, logout_mutationFn.
  js_unfold; simpl. rewrite Hw; simpl. rewrite Hw. reflexivity.
Qed.

Lemma logout_rejected_run (w : World) (e : JsError) :
  execute useLogoutMutation tt (Rejected e) w =
  (Throw e, with_toast (toast_error "退出登录失败")
              (with_console (console_error "退出登录失败:" e) w)).
Proof. reflexivity. Qed.

Lemma logged_out_purged (w : World) (key : QueryKey) :
  userQueryKeys_user `prefix_of` key -> queryCache (logged_out w) !! key = None.
Proof.
  intros Hp. simpl. apply map_lookup_filter_None. right. intros q _ Hn.
  apply Hn. exact Hp.
Qed.

Lemma logged_out_keys (w : World) :
  localStorage (logged_out w) !! "user_profile" = None
  /\ localStorage (logged_out w) !! "auth_token" = None
  /\ localStorage (logged_out w) !! "refresh_token" = None
  /\ localStorage (logged_out w) !! "expires_in" = None
  /\ localStorage (logged_out w) !! "refresh_expires_in" = None.
Proof. simpl. repeat split; by simplify_map_eq. Qed.

(** Outside a browser the teardown purges the cache and then fails on
    [window.location]; the runner reports the error to [onError] and surfaces
    it. *)
Lemma logout_without_window (w : World) (r : ApiReply) :
  window w = false ->
  completion (execute useLogoutMutation tt (Resolved r) w)
  = Throw (ReferenceError "window is not defined")
  /\ localStorage (world_after (execute useLogoutMutation tt (Resolved r) w))
     = localStorage w.
Proof.
  intros Hw. unfold useLogoutMutation, logout_onSuccess, logout_mutationFn.
  js_unfold; simpl. rewrite Hw; simpl. rewrite Hw. split; reflexivity.
Qed.

(** The hook hands the resolved result on without looking at it: a result
    that carries an error is a success of the mutation all the same. *)
Lemma logout_ignores_reply_error (w : World) (message : string) :
  window w = true ->
  execute useLogoutMutation tt (Resolved (mkApiReply (Some message))) w
  = (Normal (mkApiReply (Some message)), logged_out w).
Proof. apply logout_resolved_run. Qed.

(** C1 (as amended).  In a browser, the local teardown of a logout follows how
    the remote logout call settles.  When the call resolves - whatever the
    result object carries, the hook never looks at it - the cache entries
    under the [user] namespace are purged, the five persisted session keys are
    cleared and the page is sent to [/auth].  When the call rejects, none of
    this runs: the cache, the persisted keys and the location are as before,
    and only the failure is logged and shown. *)
Theorem logout_cleanup_follows_resolution (w : World) (reply : Settled ApiReply) :
  window w = true ->
  let done := execute useLogoutMutation tt reply w in
  match reply with
  | Resolved r =>
      completion done = Normal r
      /\ (forall key, userQueryKeys_user `prefix_of` key ->
                      queryCache (world_after done) !! key = None)
      /\ (localStorage (world_after done) !! "user_profile" = None
          /\ localStorage (world_after done) !! "auth_token" = None
          /\ localStorage (world_after done) !! "refresh_token" = None
          /\ localStorage (world_after done) !! "expires_in" = None
          /\ localStorage (world_after done) !! "refresh_expires_in" = None)
      /\ location_href (world_after done) = "/auth"
  | Rejected e =>
      completion done = Throw e
      /\ queryCache (world_after done) = queryCache w
      /\ localStorage (world_after done) = localStorage w
      /\ location_href (world_after done) = location_href w
      /\ console (world_after done) = (console w ++ [console_error "退出登录失败:" e])%list
      /\ toasts (world_after done) = (toasts w ++ [toast_error "退出登录失败"])%list
  end.
Proof.
  intros Hw done. subst done. destruct reply as [r | e].
  - rewrite (logout_resolved_run w r Hw). unfold completion, world_after, fst, snd.
    split; [reflexivity |]. split; [apply logged_out_purged |].
    split; [apply logged_out_keys | reflexivity].
  - rewrite logout_rejected_run. repeat split.
Qed.

Lemma logout_cleanup_follows_resolution_witness :
  window signed_in = true
  /\ location_href
       (world_after (execute useLogoutMutation tt (Resolved (mkApiReply None)) signed_in))
     = "/auth"
  /\ location_href
       (world_after (execute useLogoutMutation tt (Rejected (Error "Network Error")) signed_in))
     = "/docs".
Proof.
  split; [reflexivity |]. split.
  - exact (proj2 (proj2 (proj2
      (logout_cleanup_follows_resolution signed_in (Resolved (mkApiReply None)) eq_refl)))).
  - exact (proj1 (proj2 (proj2 (proj2
      (logout_cleanup_follows_resolution signed_in (Rejected (Error "Network Error")) eq_refl))))).
Defined.

(** C1, the claim as stated fails: a logout whose remote call rejects leaves
    the access token stored, the profile cached and the page where it was. *)
Lemma logout_rejected_keeps_session :
  localStorage
    (world_after (execute useLogoutMutation tt (Rejected (Error "Network Error")) signed_in))
    !! "auth_token" = Some "token"
  /\ completion
       (getQueryData userQueryKeys_profile
          (world_after
             (execute useLogoutMutation tt (Rejected (Error "Network Error")) signed_in)))
     = Normal (Some bob)
  /\ location_href
       (world_after (execute useLogoutMutation tt (Rejected (Error "Network Error")) signed_in))
     = "/docs".
Proof.
  rewrite logout_rejected_run. unfold world_after, completion, getQueryData. simpl.
  split; [by simplify_map_eq |]. split; [| reflexivity].
  unfold signed_in; simpl. by rewrite lookup_insert_eq.
Qed.

(** C7 (as amended).  In a browser, two logouts in a row whose remote calls
    resolve both complete without throwing; the first leaves no cache entry under the
    [user] namespace, so the second runs on an empty profile cache, and after
    it the five persisted session keys are absent. *)
Theorem logout_twice (w : World) (r1 r2 : ApiReply) :
  window w = true ->
  let first := execute useLogoutMutation tt (Resolved r1) w in
  let second := execute useLogoutMutation tt (Resolved r2) (world_after first) in
  completion first = Normal r1
  /\ (forall key, userQueryKeys_user `prefix_of` key ->
                  queryCache (world_after first) !! key = None)
  /\ completion second = Normal r2
  /\ (localStorage (world_after second) !! "user_profile" = None
      /\ localStorage (world_after second) !! "auth_token" = None
      /\ localStorage (world_after second) !! "refresh_token" = None
      /\ localStorage (world_after second) !! "expires_in" = None
      /\ localStorage (world_after second) !! "refresh_expires_in" = None)
  /\ queryCache (world_after second) = queryCache (world_after first)
  /\ localStorage (world_after second) = localStorage (world_after first).
Proof.
  intros Hw. cbv zeta.
  rewrite (logout_resolved_run w r1 Hw). unfold completion, world_after.
  cbn [fst snd].
  assert (Hw' : window (logged_out w) = true) by exact Hw.
  rewrite (logout_resolved_run (logged_out w) r2 Hw'). cbn [fst snd].
  split; [reflexivity |]. split; [apply logged_out_purged |].
  split; [reflexivity |]. split; [apply logged_out_keys |]. split.
  - simpl. apply map_filter_id. intros key q Hq Hp.
    apply map_lookup_filter_Some in Hq as [_ Hn]. exact (Hn Hp).
  - simpl. apply map_eq; intros k. rewrite !lookup_delete.
    repeat case_decide; reflexivity.
Qed.

(** After a logout has gone through, a second one leaves the five keys absent
    however its remote call settles. *)
Lemma logout_again_keys_absent (w : World) (r1 : ApiReply) (reply : Settled ApiReply) :
  window w = true ->
  let first := execute useLogoutMutation tt (Resolved r1) w in
  let second := execute useLogoutMutation tt reply (world_after first) in
  localStorage (world_after second) !! "user_profile" = None
  /\ localStorage (world_after second) !! "auth_token" = None
  /\ localStorage (world_after second) !! "refresh_token" = None
  /\ localStorage (world_after second) !! "expires_in" = None
  /\ localStorage (world_after second) !! "refresh_expires_in" = None.
Proof.
  intros Hw. cbv zeta. rewrite (logout_resolved_run w r1 Hw).
  unfold world_after at 2 4 6 8 10. cbn [snd].
  destruct reply as [r2 | e].
  - assert (Hw' : window (logged_out w) = true) by exact Hw.
    rewrite (logout_resolved_run (logged_out w) r2 Hw').
    apply logged_out_keys.
  - rewrite logout_rejected_run. apply (logged_out_keys w).
Qed.

Lemma logout_twice_witness :
  window signed_in = true
  /\ localStorage
       (world_after
          (execute useLogoutMutation tt (Resolved (mkApiReply None))
             (world_after
                (execute useLogoutMutation tt (Resolved (mkApiReply None)) signed_in))))
       !! "auth_token" = None.
Proof.
  split; [reflexivity |].
  exact (proj1 (proj2 (proj1 (proj2 (proj2 (proj2
    (logout_twice signed_in (mkApiReply None) (mkApiReply None) eq_refl))))))).
Defined.

(** C7, the claim as stated fails: after two logouts in a row whose remote
    calls both reject the access token is still stored; and after a first
    logout that went through, a second whose remote call rejects surfaces the
    error. *)
Lemma logout_twice_rejected :
  localStorage
    (world_after
       (execute useLogoutMutation tt (Rejected (Error "Network Error"))
          (world_after
             (execute useLogoutMutation tt (Rejected (Error "Network Error")) signed_in))))
    !! "auth_token" = Some "token"
  /\ completion
       (execute useLogoutMutation tt (Rejected (Error "Network Error"))
          (world_after
             (execute useLogoutMutation tt (Resolved (mkApiReply None)) signed_in)))
     = Throw (Error "Network Error").
Proof.
  split.
  - rewrite !logout_rejected_run. unfold world_after. simpl.
    by simplify_map_eq.
  - by rewrite logout_rejected_run.
Qed.

(** ** Optimistic update *)

Section Update.
Context `{JSON}.

Lemma payload_alter_cancel (c : gmap QueryKey QueryState) (key : QueryKey) :
  alter cancel key c !! key ≫= state_data = c !! key ≫= state_data.
Proof. rewrite lookup_alter_eq. by destruct (c !! key). Qed.

Lemma payload_alter_invalidate (c : gmap QueryKey QueryState) (key : QueryKey) :
  alter invalidate key c !! key ≫= state_data = c !! key ≫= state_data.
Proof. rewrite lookup_alter_eq. by destruct (c !! key). Qed.

(** Begin and Apply, as a function on worlds. *)
Lemma update_onMutate_run (updates : User) (w : World) :
  update_onMutate updates w =
  let w1 := with_queryCache (alter cancel userQueryKeys_profile) w in
  match queryCache w !! userQueryKeys_profile ≫= state_data with
  | Some p =>
      (Normal {| previousUser := Some p |},
       with_queryCache
         (fun c => <[userQueryKeys_profile :=
                      setData (clock w) (updates ∪ p) (c !! userQueryKeys_profile)]> c) w1)
  | None => (Normal {| previousUser := None |}, w1)
  end.
Proof.
  unfold update_onMutate. js_unfold. world_simpl.
  rewrite payload_alter_cancel.
  destruct (queryCache w !! userQueryKeys_profile ≫= state_data); reflexivity.
Qed.

Lemma update_onMutate_payload (updates : User) (w : World) :
  queryCache (world_after (update_onMutate updates w)) !! userQueryKeys_profile
    ≫= state_data
  = (fun p => updates ∪ p) <$> (queryCache w !! userQueryKeys_profile ≫= state_data).
Proof.
  rewrite update_onMutate_run. cbv zeta.
  destruct (queryCache w !! userQueryKeys_profile ≫= state_data) as [p |] eqn:Hp;
    unfold world_after; cbn [snd queryCache with_queryCache].
  - by rewrite lookup_insert_eq.
  - by rewrite payload_alter_cancel, Hp.
Qed.

Lemma update_onMutate_context (updates : User) (w : World) :
  completion (update_onMutate updates w)
  = Normal {| previousUser := queryCache w !! userQueryKeys_profile ≫= state_data |}.
Proof.
  rewrite update_onMutate_run. cbv zeta.
  by destruct (queryCache w !! userQueryKeys_profile ≫= state_data).
Qed.

(** Rollback, as a function on worlds. *)
Lemma update_onError_run (e : JsError) (variables : User)
    (context : option UpdateContext) (w : World) :
  update_onError e variables context w =
  (Normal tt,
   with_toast (toast_error "更新失败，请重试")
     (with_console (console_error "更新用户信息失败:" e)
        match context ≫= previousUser with
        | Some p =>
            with_queryCache
              (fun c => <[userQueryKeys_profile :=
                           setData (clock w) p (c !! userQueryKeys_profile)]> c) w
        | None => w
        end)).
Proof.
  unfold update_onError. js_unfold.
  destruct (context ≫= previousUser); reflexivity.
Qed.

(** Reconcile, as a function on worlds. *)
Lemma update_onSuccess_run (reply : ApiReply) (variables : User)
    (context : UpdateContext) (w : World) :
  update_onSuccess reply variables context w =
  (Normal tt,
   with_toast (toast_success ("已更新 " +:+ pretty (size variables) +:+ " 个字段"))
     (with_localStorage
        (fun s =>
           match queryCache w !! userQueryKeys_profile ≫= state_data with
           | Some u => if window w then <["user_profile" := JSON_stringify u]> s else s
           | None => s
           end)
        (with_queryCache (alter invalidate userQueryKeys_profile) w))).
Proof.
  unfold update_onSuccess. js_unfold. world_simpl.
  rewrite payload_alter_invalidate.
  destruct (queryCache w !! userQueryKeys_profile ≫= state_data);
    destruct (window w); reflexivity.
Qed.

(** The whole mutation, by how the remote call settles. *)
Lemma execute_update_rejected (updates : User) (e : JsError) (w : World) :
  execute useUpdateUserMutation updates (Rejected e) w =
  (Throw e,
   world_after
     (update_onError e updates
        (Some {| previousUser := queryCache w !! userQueryKeys_profile ≫= state_data |})
        (world_after (update_onMutate updates w)))).
Proof.
  unfold execute. cbn [onMutate mutationFn onSuccess onError useUpdateUserMutation].
  pose proof (update_onMutate_context updates w) as Hc.
  destruct (update_onMutate updates w) as [c w1] eqn:Hm.
  unfold completion in Hc; cbn [fst] in Hc; subst c.
  unfold world_after; cbn [snd].
  unfold try_catch, bind, update_mutationFn, await, throw.
  rewrite update_onError_run. reflexivity.
Qed.

Lemma execute_update_resolved (updates : User) (reply : ApiReply) (w : World) :
  execute useUpdateUserMutation updates (Resolved reply) w =
  (Normal reply,
   world_after
     (update_onSuccess reply updates
        {| previousUser := queryCache w !! userQueryKeys_profile ≫= state_data |}
        (world_after (update_onMutate updates w)))).
Proof.
  unfold execute. cbn [onMutate mutationFn onSuccess onError useUpdateUserMutation].
  pose proof (update_onMutate_context updates w) as Hc.
  destruct (update_onMutate updates w) as [c w1] eqn:Hm.
  unfold completion in Hc; cbn [fst] in Hc; subst c.
  unfold world_after; cbn [snd].
  unfold try_catch, bind, update_mutationFn, await, ret.
  rewrite update_onSuccess_run. reflexivity.
Qed.

Lemma getQueryData_completion (key : QueryKey) (w : World) :
  completion (getQueryData key w) = Normal (queryCache w !! key ≫= state_data).
Proof. reflexivity. Qed.

Lemma cached_payload (key : QueryKey) (w : World) (p : User) :
  completion (getQueryData key w) = Normal (Some p) ->
  queryCache w !! key ≫= state_data = Some p.
Proof. rewrite getQueryData_completion. congruence. Qed.

(** With nothing cached, [onMutate] writes nothing: the guard on the snapshot
    skips the optimistic [set]. *)
Lemma update_onMutate_nothing_cached (w : World) (updates : User) :
  completion (getQueryData userQueryKeys_profile w) = Normal None ->
  completion
    (getQueryData userQueryKeys_profile (world_after (update_onMutate updates w)))
  = Normal None.
Proof.
  rewrite !getQueryData_completion, update_onMutate_payload.
  intros Hp. injection Hp as ->. reflexivity.
Qed.

(** [onMutate] is the part before the [await] followed by the part after. *)
Lemma update_onMutate_split (updates : User) :
  update_onMutate updates
  = bind (update_onMutate_until_await updates)
         (fun _ => update_onMutate_after_await updates).
Proof. reflexivity. Qed.

(** C2 (as amended).  A read made synchronously right after the update is
    invoked - [onMutate] has run up to its [await] and no further - still
    returns the cached payload as it was.  Once [onMutate] has completed, the
    remote update call not having been made yet: when the profile cache entry
    held a payload, the read returns a profile in which every field of the
    partial update has the update's value (with [{name: "Alice"}], its [name]
    is ["Alice"]); when it held none, nothing was written and the read
    returns no profile. *)
Theorem optimistic_update_visible (w : World) (updates : User) :
  let invoked := world_after (update_onMutate_until_await updates w) in
  let applied := world_after (update_onMutate updates w) in
  completion (getQueryData userQueryKeys_profile invoked)
  = completion (getQueryData userQueryKeys_profile w)
  /\ (forall (p : User) (field : string) (v : JsValue),
        completion (getQueryData userQueryKeys_profile w) = Normal (Some p) ->
        updates !! field = Some v ->
        exists shown : User,
          completion (getQueryData userQueryKeys_profile applied) = Normal (Some shown)
          /\ shown !! field = Some v)
  /\ (completion (getQueryData userQueryKeys_profile w) = Normal None ->
      completion (getQueryData userQueryKeys_profile applied) = Normal None).
Proof.
  cbv zeta. split; [| split].
  - rewrite !getQueryData_completion. unfold update_onMutate_until_await.
    js_unfold. world_simpl. by rewrite payload_alter_cancel.
  - intros p field v Hp Hv. apply cached_payload in Hp.
    exists (updates ∪ p). split.
    + rewrite getQueryData_completion, update_onMutate_payload, Hp. reflexivity.
    + by apply lookup_union_Some_l.
  - apply update_onMutate_nothing_cached.
Qed.

(** C10.  With a profile [p] cached, the Apply step leaves in the cache exactly
    the merge of the partial update over [p]: a field that is not a key of the
    update keeps its value from [p], a key of the update takes the update's
    value; the other cache entries and the persisted store are untouched. *)
Theorem optimistic_apply_is_merge (w : World) (updates p : User) :
  completion (getQueryData userQueryKeys_profile w) = Normal (Some p) ->
  let applied := world_after (update_onMutate updates w) in
  exists merged : User,
    completion (getQueryData userQueryKeys_profile applied) = Normal (Some merged)
    /\ (forall field, updates !! field = None -> merged !! field = p !! field)
    /\ (forall field v, updates !! field = Some v -> merged !! field = Some v)
    /\ (forall key, key <> userQueryKeys_profile ->
                    queryCache applied !! key = queryCache w !! key)
    /\ localStorage applied = localStorage w.
Proof.
  intros Hp applied. apply cached_payload in Hp.
  exists (updates ∪ p). split; [| split; [| split; [| split]]].
  - subst applied.
    rewrite getQueryData_completion, update_onMutate_payload, Hp. reflexivity.
  - intros field Hn. by apply lookup_union_r.
  - intros field v Hv. by apply lookup_union_Some_l.
  - intros key Hk. subst applied. rewrite update_onMutate_run, Hp. cbv zeta.
    unfold world_after. world_simpl.
    rewrite lookup_insert_ne by congruence. by rewrite lookup_alter_ne.
  - subst applied. rewrite update_onMutate_run, Hp. reflexivity.
Qed.


(** C4.  An update whose remote call succeeds: the profile cache entry is
    marked invalidated with its payload kept, so that no later read is served
    from the cache; the payload then read back from the cache, when there is
    one, is written to [user_profile] in the persisted store (in a browser;
    elsewhere the store is not touched); and the success toast carries the
    number of keys of the partial update. *)
Theorem successful_update_reconciles (w : World) (updates : User) (reply : ApiReply) :
  let applied := world_after (update_onMutate updates w) in
  let done := execute useUpdateUserMutation updates (Resolved reply) w in
  completion done = Normal reply
  /\ queryCache (world_after done)
     = alter invalidate userQueryKeys_profile (queryCache applied)
  /\ (forall ms, cached useUserQuery_options userQueryKeys_profile
                   (advance ms (world_after done)) = None)
  /\ completion (getQueryData userQueryKeys_profile (world_after done))
     = completion (getQueryData userQueryKeys_profile applied)
  /\ localStorage (world_after done)
     = match queryCache applied !! userQueryKeys_profile ≫= state_data with
       | Some current =>
           if window w
           then <["user_profile" := JSON_stringify current]> (localStorage w)
           else localStorage w
       | None => localStorage w
       end
  /\ toasts (world_after done)
     = (toasts w ++
        [toast_success ("已更新 " +:+ pretty (size updates) +:+ " 个字段")])%list.
Proof.
  cbv zeta. rewrite execute_update_resolved, update_onSuccess_run.
  set (applied := world_after (update_onMutate updates w)).
  unfold completion at 1. unfold world_after. cbn [fst snd].
  assert (Hwin : window applied = window w).
  { subst applied. rewrite update_onMutate_run. cbv zeta.
    by destruct (queryCache w !! userQueryKeys_profile ≫= state_data). }
  assert (Hsto : localStorage applied = localStorage w).
  { subst applied. rewrite update_onMutate_run. cbv zeta.
    by destruct (queryCache w !! userQueryKeys_profile ≫= state_data). }
  assert (Htoast : toasts applied = toasts w).
  { subst applied. rewrite update_onMutate_run. cbv zeta.
    by destruct (queryCache w !! userQueryKeys_profile ≫= state_data). }
  split; [reflexivity |]. split; [reflexivity |]. split; [| split; [| split]].
  - intros ms. unfold cached, advance. world_simpl.
    rewrite lookup_alter_eq.
    destruct (queryCache applied !! userQueryKeys_profile) as [q |]; reflexivity.
  - rewrite !getQueryData_completion. world_simpl.
    by rewrite payload_alter_invalidate.
  - world_simpl. rewrite Hwin, Hsto. reflexivity.
  - world_simpl. by rewrite Htoast.
Qed.


End Update.

Lemma optimistic_update_visible_witness :
  completion (getQueryData userQueryKeys_profile signed_in) = Normal (Some bob)
  /\ alice_update !! "name" = Some (JStr "Alice")
  /\ exists shown : User,
       completion
         (getQueryData userQueryKeys_profile
            (world_after (update_onMutate alice_update signed_in)))
       = Normal (Some shown)
       /\ shown !! "name" = Some (JStr "Alice").
Proof.
  split; [reflexivity |]. split; [reflexivity |].
  apply (proj1 (proj2 (optimistic_update_visible signed_in alice_update))
           bob "name" (JStr "Alice")); reflexivity.
Defined.

(** C2, the claim as stated fails twice over.  With [{name: "Bob", ...}]
    cached, the read made right after an update with [{name: "Alice"}] is
    invoked - [onMutate] suspended at its [await] - still returns the profile
    named Bob.  And with nothing cached, the read returns no profile even
    after [onMutate] has completed. *)
Lemma optimistic_update_not_always_visible :
  alice_update !! "name" = Some (JStr "Alice")
  /\ completion
       (getQueryData userQueryKeys_profile
          (world_after (update_onMutate_until_await alice_update signed_in)))
     = Normal (Some bob)
  /\ bob !! "name" = Some (JStr "Bob")
  /\ completion
       (getQueryData userQueryKeys_profile
          (world_after (update_onMutate alice_update cold_start)))
     = Normal None.
Proof.
  split; [reflexivity |]. split; [reflexivity |]. split; [reflexivity |].
  by apply update_onMutate_nothing_cached.
Qed.

Lemma optimistic_apply_is_merge_witness :
  completion (getQueryData userQueryKeys_profile signed_in) = Normal (Some bob)
  /\ exists merged : User,
       completion
         (getQueryData userQueryKeys_profile
            (world_after (update_onMutate alice_update signed_in)))
       = Normal (Some merged)
       /\ merged !! "email" = Some (JStr "b@x.com")
       /\ merged !! "name" = Some (JStr "Alice").
Proof.
  split; [reflexivity |].
  destruct (optimistic_apply_is_merge signed_in alice_update bob eq_refl)
    as (merged & Hread & Hkeep & Htake & _).
  exists merged. split; [exact Hread |]. split.
  - rewrite (Hkeep "email" eq_refl). reflexivity.
  - exact (Htake "name" (JStr "Alice") eq_refl).
Defined.



(** ** The fetcher and the mirror *)

Section Fetcher.
Context `{JSON}.

Lemma await_resolved {A} (a : A) (w : World) : await (Resolved a) w = (Normal a, w).
Proof. reflexivity. Qed.

(** The fetcher, as a function on worlds. *)
Lemma queryFn_run (reply : Settled ApiResult) (w : World) :
  queryFn reply w =
  match reply with
  | Rejected e => (Throw e, w)
  | Resolved r =>
      match truthy (error r), data r with
      | false, Some (mkApiBody (Some user)) =>
          (Normal user,
           if window w
           then with_localStorage (insert "user_profile" (JSON_stringify user)) w
           else w)
      | _, _ => (Throw (Error (or_else (error r) "获取用户信息失败")), w)
      end
  end.
Proof.
  destruct reply as [r | e]; [| reflexivity].
  unfold queryFn, bind. rewrite await_resolved.
  destruct (truthy (error r)); [reflexivity |].
  destruct (data r) as [[[user |]] |]; try reflexivity.
  js_unfold. destruct (window w); reflexivity.
Qed.

Lemma queryFn_completion (reply : Settled ApiResult) (w w' : World) :
  completion (queryFn reply w) = completion (queryFn reply w').
Proof.
  rewrite !queryFn_run. destruct reply as [r | e]; [| reflexivity].
  destruct (truthy (error r)); [reflexivity |].
  destruct (data r) as [[[user |]] |]; reflexivity.
Qed.

(** C5 (as amended).  Once [getCurrentUser] has resolved to a result, the
    fetcher fails if and only if the result's [error] is truthy - a string
    that is neither [null] nor empty - or [data] or [data.data] is missing.
    A failure throws the error built from the result and touches nothing: the
    mirror is neither read nor written.  A success returns [data.data] and, in
    a browser, stores its text under [user_profile]; outside a browser the
    store is left alone. *)
Theorem queryFn_fails_iff (w : World) (r : ApiResult) :
  let done := queryFn (Resolved r) w in
  ((exists e, completion done = Throw e) <->
   (truthy (error r) = true \/ data r = None \/ data r = Some (mkApiBody None)))
  /\ (forall e, completion done = Throw e ->
                e = Error (or_else (error r) "获取用户信息失败") /\ world_after done = w)
  /\ (forall user, completion done = Normal user ->
         data r = Some (mkApiBody (Some user))
         /\ world_after done =
            if window w
            then with_localStorage (insert "user_profile" (JSON_stringify user)) w
            else w).
Proof.
  cbv zeta. rewrite queryFn_run. unfold completion, world_after.
  destruct (truthy (error r)) eqn:Herr; cbn [fst snd].
  { split; [| split].
    - split; [auto | eauto].
    - intros e [= <-]. auto.
    - intros user [=]. }
  destruct (data r) as [[[user |]] |]; cbn [fst snd].
  - split; [| split].
    + split; [intros [e [=]] | intros [[=] | [[=] | [=]]]].
    + intros e [=].
    + intros user' [= <-]. auto.
  - split; [| split].
    + split; [auto | eauto].
    + intros e [= <-]. auto.
    + intros user [=].
  - split; [| split].
    + split; [auto | eauto].
    + intros e [= <-]. auto.
    + intros user [=].
Qed.

(** A remote call that rejects makes the fetcher fail with the rejection. *)
Lemma queryFn_rejected (w : World) (e : JsError) :
  queryFn (Rejected e) w = (Throw e, w).
Proof. reflexivity. Qed.

(** The mirror read, as a function on worlds. *)
Lemma getLocalUserData_run (w : World) :
  getLocalUserData w =
  if window w then
    match localStorage w !! "user_profile" with
    | Some text =>
        if String.eqb text "" then (Normal None, w)
        else
          match JSON_parse text with
          | Some v => (Normal (Some v), w)
          | None =>
              (Normal None,
               with_console
                 (console_warn "解析本地用户数据失败:"
                    (SyntaxError "JSON.parse: unexpected token")) w)
          end
    | None => (Normal None, w)
    end
  else (Normal None, w).
Proof.
  unfold getLocalUserData, JSON_parse_or_throw. js_unfold.
  destruct (window w); [| reflexivity]. cbn [negb].
  destruct (localStorage w !! "user_profile") as [text |]; [| reflexivity].
  cbn [truthy]. destruct (String.eqb text ""); [reflexivity |]. cbn [negb].
  destruct (JSON_parse text); reflexivity.
Qed.

(** C8 (as amended).  [getLocalUserData] never throws.  Outside a browser it
    returns [undefined]; so it does when nothing is stored under
    [user_profile], and when the empty text is stored there - the truthiness
    guard skips the parse, so no warning is logged.  On a stored text that is
    not empty and that [JSON.parse] rejects it returns [undefined] and logs
    one warning, changing nothing else. *)
Theorem getLocalUserData_never_throws (w : World) :
  let done := getLocalUserData w in
  (exists v, completion done = Normal v)
  /\ (window w = false -> done = (Normal None, w))
  /\ (localStorage w !! "user_profile" = None -> done = (Normal None, w))
  /\ (localStorage w !! "user_profile" = Some "" -> done = (Normal None, w))
  /\ (forall text,
        window w = true ->
        localStorage w !! "user_profile" = Some text ->
        text <> "" ->
        JSON_parse text = None ->
        completion done = Normal None
        /\ world_after done =
           with_console
             (console_warn "解析本地用户数据失败:"
                (SyntaxError "JSON.parse: unexpected token")) w).
Proof.
  cbv zeta. rewrite getLocalUserData_run. split; [| split; [| split; [| split]]].
  - destruct (window w); [| eauto].
    destruct (localStorage w !! "user_profile") as [text |]; [| eauto].
    destruct (String.eqb text ""); [eauto |].
    destruct (JSON_parse text); eauto.
  - intros ->. reflexivity.
  - intros ->. destruct (window w); reflexivity.
  - intros ->. destruct (window w); reflexivity.
  - intros text -> -> Hne Hparse.
    apply String.eqb_neq in Hne. rewrite Hne, Hparse. auto.
Qed.

(** The empty text is stored data that [JSON.parse] rejects; the truthiness
    guard keeps it from the parser, so nothing is logged. *)
Lemma getLocalUserData_empty_text (w : World) :
  localStorage w !! "user_profile" = Some "" ->
  JSON_parse "" = None /\ getLocalUserData w = (Normal None, w).
Proof.
  intros Hs. split; [apply JSON_parse_empty |].
  rewrite getLocalUserData_run, Hs. by destruct (window w).
Qed.

End Fetcher.

Lemma queryFn_fails_iff_witness :
  completion
    (queryFn (H := flat_JSON)
       (Resolved (mkApiResult None (Some "Unauthorized"))) signed_in)
  = Throw (Error "Unauthorized")
  /\ world_after
       (queryFn (H := flat_JSON)
          (Resolved (mkApiResult None (Some "Unauthorized"))) signed_in)
     = signed_in.
Proof.
  split.
  - reflexivity.
  - exact (proj2 (proj1 (proj2
      (queryFn_fails_iff (H := flat_JSON) signed_in
         (mkApiResult None (Some "Unauthorized")))) _ eq_refl)).
Defined.

(** C5, the claim as stated fails: a result whose [error] is the empty string
    - not [null] - with a profile in [data.data] makes the fetcher succeed. *)
Lemma queryFn_accepts_empty_error :
  error (mkApiResult (Some (mkApiBody (Some bob))) (Some "")) <> None
  /\ completion
       (queryFn (H := flat_JSON)
          (Resolved (mkApiResult (Some (mkApiBody (Some bob))) (Some ""))) cold_start)
     = Normal bob.
Proof. split; [discriminate | reflexivity]. Qed.

Lemma getLocalUserData_never_throws_witness :
  window (mirror_holds "{oops") = true
  /\ localStorage (mirror_holds "{oops") !! "user_profile" = Some "{oops"
  /\ JSON_parse (JSON := flat_JSON) "{oops" = None
  /\ completion (getLocalUserData (H := flat_JSON) (mirror_holds "{oops")) = Normal None
  /\ console (world_after (getLocalUserData (H := flat_JSON) (mirror_holds "{oops")))
     = [console_warn "解析本地用户数据失败:" (SyntaxError "JSON.parse: unexpected token")].
Proof.
  split; [reflexivity |]. split; [reflexivity |]. split; [reflexivity |].
  destruct (proj2 (proj2 (proj2 (proj2
    (getLocalUserData_never_throws (H := flat_JSON) (mirror_holds "{oops")))))
      "{oops" eq_refl eq_refl ltac:(discriminate) eq_refl) as [Hc Hw].
  split; [exact Hc |]. rewrite Hw. reflexivity.
Defined.

(** C8, the claim as stated fails: the empty text under [user_profile] is
    stored data that [JSON.parse] rejects, yet reading the mirror logs no
    warning. *)
Lemma getLocalUserData_empty_text_no_warning :
  localStorage (mirror_holds "") !! "user_profile" = Some ""
  /\ JSON_parse (JSON := flat_JSON) "" = None
  /\ completion (getLocalUserData (H := flat_JSON) (mirror_holds "")) = Normal None
  /\ console (world_after (getLocalUserData (H := flat_JSON) (mirror_holds ""))) = [].
Proof.
  assert (Hs : localStorage (mirror_holds "") !! "user_profile" = Some "")
    by reflexivity.
  destruct (getLocalUserData_empty_text (H := flat_JSON) (mirror_holds "") Hs)
    as [Hparse Hrun].
  rewrite Hrun. split; [exact Hs |]. split; [exact Hparse |]. split; reflexivity.
Qed.

(** ** The read path *)

Section Reads.
Context `{JSON}.

Lemma fresh_earlier (opts : QueryOptions) (now ms : Z) (q : QueryState) :
  0 <= ms -> fresh opts (now + ms) q = true -> fresh opts now q = true.
Proof.
  unfold fresh. intros Hms Hf.
  apply andb_prop in Hf as [Hf Hgc]. apply andb_prop in Hf as [Hinv Hstale].
  apply bool_decide_eq_true in Hstale. apply negb_true_iff in Hgc.
  apply bool_decide_eq_false in Hgc.
  rewrite Hinv. cbn [andb].
  rewrite bool_decide_eq_true_2 by lia. cbn [andb].
  rewrite bool_decide_eq_false_2 by lia. reflexivity.
Qed.

Lemma fresh_setFetching (opts : QueryOptions) (now : Z) (b : bool) (q : QueryState) :
  fresh opts now (setFetching b (Some q)) = fresh opts now q.
Proof. reflexivity. Qed.

(** A miss stays a miss as time passes. *)
Lemma cached_advance (opts : QueryOptions) (key : QueryKey) (w : World) (ms : Z) :
  cached opts key w = None -> 0 <= ms -> cached opts key (advance ms w) = None.
Proof.
  unfold cached, advance. world_simpl. intros Hc Hms.
  destruct (queryCache w !! key) as [q |]; [| reflexivity].
  cbn [mbind option_bind] in *.
  destruct (fresh opts (clock w + ms) q) eqn:Hf; [| reflexivity].
  apply fresh_earlier in Hf; [| exact Hms]. by rewrite Hf in Hc.
Qed.

(** Starting the fetch does not make the entry servable. *)
Lemma cached_markFetching (opts : QueryOptions) (key : QueryKey) (w : World) (b : bool) :
  cached opts key w = None -> cached opts key (markFetching key b w) = None.
Proof.
  unfold cached, markFetching. world_simpl. intros Hc.
  rewrite lookup_insert_eq. cbn [mbind option_bind].
  destruct (queryCache w !! key) as [q |];
    [| cbn [setFetching state_data]; by destruct (fresh _ _ _)].
  cbn [mbind option_bind] in Hc. by rewrite fresh_setFetching.
Qed.

Lemma cached_while_fetching (opts : QueryOptions) (key : QueryKey) (w : World) (ms : Z) :
  cached opts key w = None -> 0 <= ms ->
  cached opts key (advance ms (markFetching key true w)) = None.
Proof.
  intros Hc Hms. apply cached_advance; [| exact Hms].
  by apply cached_markFetching.
Qed.

Lemma inFlight_marked (key : QueryKey) (b : bool) (w : World) :
  inFlight key (markFetching key b w) = b.
Proof.
  unfold inFlight, markFetching. world_simpl.
  rewrite lookup_insert_eq. by destruct (queryCache w !! key).
Qed.

Lemma inFlight_markFetching (key : QueryKey) (b : bool) (w : World) (ms : Z) :
  inFlight key (advance ms (markFetching key b w)) = b.
Proof. exact (inFlight_marked key b w). Qed.

(** The steps of the read path, case by case. *)
Lemma read_step_starts (opts : QueryOptions) (key : QueryKey) (r : nat) (w : World)
    (waiting : list nat) (calls : nat) (got : list (nat * Completion User)) :
  cached opts key w = None -> inFlight key w = false ->
  read_step opts key (Read r) (mkReads w waiting calls got)
  = mkReads (markFetching key true w) (waiting ++ [r]) (S calls) got.
Proof. intros Hc Hfl. unfold read_step. cbn [reads_world]. by rewrite Hc, Hfl. Qed.

Lemma read_step_joins (opts : QueryOptions) (key : QueryKey) (r : nat) (w : World)
    (waiting : list nat) (calls : nat) (got : list (nat * Completion User)) :
  cached opts key w = None -> inFlight key w = true ->
  read_step opts key (Read r) (mkReads w waiting calls got)
  = mkReads w (waiting ++ [r]) calls got.
Proof. intros Hc Hfl. unfold read_step. cbn [reads_world]. by rewrite Hc, Hfl. Qed.

Lemma read_step_serves (opts : QueryOptions) (key : QueryKey) (r : nat) (w : World)
    (waiting : list nat) (calls : nat) (got : list (nat * Completion User))
    (payload : User) :
  cached opts key w = Some payload ->
  read_step opts key (Read r) (mkReads w waiting calls got)
  = mkReads w waiting calls (got ++ [(r, Normal payload)]).
Proof. intros Hc. unfold read_step. cbn [reads_world]. by rewrite Hc. Qed.

Lemma read_step_tick (opts : QueryOptions) (key : QueryKey) (ms : Z) (st : Reads) :
  read_step opts key (Tick ms) st
  = mkReads (advance ms (reads_world st)) (awaiting st) (fetcherCalls st) (delivered st).
Proof. reflexivity. Qed.

Lemma read_step_settles (opts : QueryOptions) (key : QueryKey)
    (reply : Settled ApiResult) (w : World)
    (waiting : list nat) (calls : nat) (got : list (nat * Completion User)) :
  inFlight key w = true ->
  read_step opts key (FetchSettles reply) (mkReads w waiting calls got)
  = match queryFn reply w with
    | (Normal payload, w') =>
        mkReads (markFetching key false (world_after (setQueryData key payload w')))
                [] calls (got ++ map (fun r => (r, Normal payload)) waiting)
    | (Throw e, w') =>
        mkReads (markFetching key false w') [] calls
                (got ++ map (fun r => (r, Throw e)) waiting)
    end.
Proof. intros Hfl. unfold read_step. cbn [reads_world]. by rewrite Hfl. Qed.

(** Any number of reads issued during a fetch join it: none starts another. *)
Lemma reads_join_in_flight (opts : QueryOptions) (key : QueryKey) (readers : list nat)
    (w : World) (waiting : list nat) (calls : nat) (got : list (nat * Completion User)) :
  cached opts key w = None -> inFlight key w = true ->
  run_reads opts key (map Read readers) (mkReads w waiting calls got)
  = mkReads w (waiting ++ readers) calls got.
Proof.
  intros Hc Hfl. revert waiting.
  induction readers as [| r readers IH]; intros waiting.
  - by rewrite app_nil_r.
  - unfold run_reads in *. cbn [map fold_left].
    rewrite (read_step_joins _ _ r w waiting calls got Hc Hfl), IH.
    by rewrite <- app_assoc.
Qed.

(** However many reads are issued before the fetch settles, the fetcher is
    started once and every read gets its result. *)
Lemma many_reads_share_one_fetch (opts : QueryOptions) (key : QueryKey)
    (r : nat) (readers : list nat) (w : World) (reply : Settled ApiResult) :
  cached opts key w = None -> inFlight key w = false ->
  let st := run_reads opts key (map Read (r :: readers) ++ [FetchSettles reply]) (idle w) in
  fetcherCalls st = 1%nat
  /\ awaiting st = []
  /\ delivered st = map (fun reader => (reader, completion (queryFn reply w))) (r :: readers).
Proof.
  intros Hc Hfl. cbv zeta. unfold run_reads, idle.
  rewrite fold_left_app. cbn [map fold_left].
  rewrite (read_step_starts _ _ r w [] 0 [] Hc Hfl). cbn [app].
  pose proof (reads_join_in_flight opts key readers (markFetching key true w) [r] 1 []
                (cached_markFetching _ _ _ _ Hc) (inFlight_marked _ _ _)) as Hjoin.
  unfold run_reads in Hjoin. rewrite Hjoin.
  rewrite (read_step_settles _ _ reply _ _ _ _ (inFlight_marked _ _ _)).
  rewrite (queryFn_completion reply w (markFetching key true w)).
  destruct (queryFn reply (markFetching key true w)) as [[user | e] w'];
    cbn [reads_world awaiting fetcherCalls delivered completion fst app map];
    repeat split.
Qed.

(** C6.  [useUserQuery] hands the query library a staleness threshold of five
    minutes and an expiry threshold of thirty (both in milliseconds), three
    retries, and no refetch on window focus.  On the read path, an entry as
    old as the expiry threshold is a miss whatever it holds, and a read of it
    with no fetch in flight starts one fetch. *)
Theorem useUserQuery_configuration :
  staleTime useUserQuery_options = minutes 5
  /\ gcTime useUserQuery_options = minutes 30
  /\ retry useUserQuery_options = 3%nat
  /\ refetchOnWindowFocus useUserQuery_options = false
  /\ (forall (w : World) (q : QueryState) (reader : nat),
        queryCache w !! userQueryKeys_profile = Some q ->
        minutes 30 <= clock w - dataUpdatedAt q ->
        cached useUserQuery_options userQueryKeys_profile w = None
        /\ (inFlight userQueryKeys_profile w = false ->
            fetcherCalls
              (read_step useUserQuery_options userQueryKeys_profile (Read reader) (idle w))
            = 1%nat)).
Proof.
  split; [reflexivity |]. split; [reflexivity |]. split; [reflexivity |].
  split; [reflexivity |]. intros w q reader Hq Hold.
  assert (Hc : cached useUserQuery_options userQueryKeys_profile w = None).
  { unfold cached. rewrite Hq. cbn [mbind option_bind]. unfold fresh.
    replace (bool_decide (gcTime useUserQuery_options <= clock w - dataUpdatedAt q))
      with true by (symmetry; apply bool_decide_eq_true_2; exact Hold).
    by rewrite andb_false_r. }
  split; [exact Hc |]. intros Hfl.
  unfold read_step, idle. cbn [reads_world]. rewrite Hc, Hfl. reflexivity.
Qed.

(** C9.  Two reads issued one after the other while the cache has no valid
    entry for the profile and no fetch is in flight: the first starts the
    fetcher, the second joins the fetch in flight, so the fetcher is started
    exactly once; when the remote call settles both reads get the same
    result, which on success is the fetched profile, by then in the cache. *)
Theorem concurrent_reads_share_one_fetch (w : World) (r1 r2 : nat) (ms : Z)
    (reply : Settled ApiResult) :
  cached useUserQuery_options userQueryKeys_profile w = None ->
  inFlight userQueryKeys_profile w = false ->
  0 <= ms ->
  let st :=
    run_reads useUserQuery_options userQueryKeys_profile
      [Read r1; Tick ms; Read r2; FetchSettles reply] (idle w) in
  fetcherCalls st = 1%nat
  /\ awaiting st = []
  /\ delivered st =
     [(r1, completion (queryFn reply w)); (r2, completion (queryFn reply w))]
  /\ (forall user, completion (queryFn reply w) = Normal user ->
         completion (getQueryData userQueryKeys_profile (reads_world st))
         = Normal (Some user)).
Proof.
  intros Hc Hfl Hms. cbv zeta.
  unfold run_reads, idle. cbn [fold_left].
  rewrite (read_step_starts _ _ r1 w [] 0 [] Hc Hfl).
  rewrite read_step_tick.
  rewrite (read_step_joins _ _ r2 _ _ _ _
             (cached_while_fetching _ _ _ _ Hc Hms) (inFlight_markFetching _ _ _ _)).
  rewrite (read_step_settles _ _ reply _ _ _ _ (inFlight_markFetching _ _ _ _)).
  rewrite (queryFn_completion reply w
             (advance ms (markFetching userQueryKeys_profile true w))).
  destruct (queryFn reply (advance ms (markFetching userQueryKeys_profile true w)))
    as [[user | e] w'] eqn:Hq;
    cbn [reads_world awaiting fetcherCalls delivered completion fst app map].
  - split; [reflexivity |]. split; [reflexivity |]. split; [reflexivity |].
    intros user' [= <-]. rewrite getQueryData_completion.
    unfold markFetching, setQueryData, effect, world_after. world_simpl.
    rewrite !lookup_insert_eq. reflexivity.
  - split; [reflexivity |]. split; [reflexivity |]. split; [reflexivity |].
    intros user [=].
Qed.

End Reads.

Lemma useUserQuery_configuration_witness :
  queryCache signed_in !! userQueryKeys_profile = Some bob_entry
  /\ minutes 30 <= clock (advance (minutes 31) signed_in) - dataUpdatedAt bob_entry
  /\ cached useUserQuery_options userQueryKeys_profile (advance (minutes 31) signed_in)
     = None.
Proof.
  split; [reflexivity |]. split; [by vm_compute |].
  refine (proj1 (proj2 (proj2 (proj2 (proj2 (useUserQuery_configuration (H := flat_JSON)))))
                  (advance (minutes 31) signed_in) bob_entry 0%nat eq_refl _)).
  by vm_compute.
Defined.

Lemma concurrent_reads_share_one_fetch_witness :
  cached useUserQuery_options userQueryKeys_profile cold_start = None
  /\ inFlight userQueryKeys_profile cold_start = false
  /\ 0 <= 20
  /\ fetcherCalls
       (run_reads (H := flat_JSON) useUserQuery_options userQueryKeys_profile
          [Read 1%nat; Tick 20; Read 2%nat;
           FetchSettles (Resolved (mkApiResult (Some (mkApiBody (Some bob))) None))]
          (idle cold_start))
     = 1%nat.
Proof.
  split; [reflexivity |]. split; [reflexivity |]. split; [lia |].
  refine (proj1 (concurrent_reads_share_one_fetch (H := flat_JSON) cold_start 1%nat 2%nat 20
            (Resolved (mkApiResult (Some (mkApiBody (Some bob))) None))
            eq_refl eq_refl _)).
  lia.
Defined.

(** * Further properties of the hooks *)

(** ** Teardown: what it leaves alone, and what is left to read *)

(** X3.  In a browser, a logout whose remote call resolved touches nothing but
    its own: every persisted key other than the five session keys keeps its
    value, every cache entry whose key is not under [user] stays, the console
    is not written, and exactly one success toast is shown. *)
Theorem logout_leaves_the_rest (w : World) (r : ApiReply) :
  window w = true ->
  let done := execute useLogoutMutation tt (Resolved r) w in
  (forall key : string,
     key ∉ ["user_profile"; "auth_token"; "refresh_token"; "expires_in";
            "refresh_expires_in"] ->
     localStorage (world_after done) !! key = localStorage w !! key)
  /\ (forall key : QueryKey,
        ¬ userQueryKeys_user `prefix_of` key ->
        queryCache (world_after done) !! key = queryCache w !! key)
  /\ toasts (world_after done) = (toasts w ++ [toast_success "已成功退出登录"])%list
  /\ console (world_after done) = console w.
Proof.
  intros Hw. cbv zeta. rewrite (logout_resolved_run w r Hw).
  unfold world_after. cbn [snd]. split; [| split; [| split]].
  - intros key Hkey. simpl.
    rewrite !not_elem_of_cons in Hkey.
    destruct Hkey as (H1 & H2 & H3 & H4 & H5 & _).
    by rewrite !lookup_delete_ne.
  - intros key Hkey. simpl.
    destruct (queryCache w !! key) as [q |] eqn:Hq.
    + by apply map_lookup_filter_Some.
    + apply map_lookup_filter_None. by left.
  - reflexivity.
  - reflexivity.
Qed.

Lemma logout_leaves_the_rest_witness :
  window signed_in_with_more = true
  /\ localStorage
       (world_after
          (execute useLogoutMutation tt (Resolved (mkApiReply None)) signed_in_with_more))
       !! "theme" = Some "dark"
  /\ queryCache
       (world_after
          (execute useLogoutMutation tt (Resolved (mkApiReply None)) signed_in_with_more))
       !! ["documents"] = Some documents_entry
  /\ localStorage
       (world_after
          (execute useLogoutMutation tt (Resolved (mkApiReply None)) signed_in_with_more))
       !! "auth_token" = None.
Proof.
  split; [reflexivity |].
  destruct (logout_leaves_the_rest signed_in_with_more (mkApiReply None) eq_refl)
    as (Hkeys & Hcache & _).
  split; [| split].
  - rewrite (Hkeys "theme"); [reflexivity |].
    rewrite !not_elem_of_cons. repeat split; try discriminate.
    apply not_elem_of_nil.
  - rewrite (Hcache ["documents"]); [reflexivity |].
    intros [k Hk]. discriminate Hk.
  - rewrite logout_resolved_run by reflexivity. apply logged_out_keys.
Defined.

(** X9.  Where there is no [window], a logout whose remote call resolved still
    purges the cache entries under [user] and shows the success toast, then
    fails on [window.location]: the persisted store and the location are not
    touched, the error is surfaced, and the error toast follows the success
    toast. *)
Theorem logout_outside_browser (w : World) (r : ApiReply) :
  window w = false ->
  let done := execute useLogoutMutation tt (Resolved r) w in
  completion done = Throw (ReferenceError "window is not defined")
  /\ (forall key : QueryKey,
        userQueryKeys_user `prefix_of` key ->
        queryCache (world_after done) !! key = None)
  /\ localStorage (world_after done) = localStorage w
  /\ location_href (world_after done) = location_href w
  /\ toasts (world_after done)
     = (toasts w ++ [toast_success "已成功退出登录"; toast_error "退出登录失败"])%list.
Proof.
  intros Hw. cbv zeta.
  assert (Hrun : execute useLogoutMutation tt (Resolved r) w =
    (Throw (ReferenceError "window is not defined"),
     with_toast (toast_error "退出登录失败")
       (with_console
          (console_error "退出登录失败:" (ReferenceError "window is not defined"))
          (with_toast (toast_success "已成功退出登录")
             (with_queryCache
                (filter (fun kq : QueryKey * QueryState =>
                           ¬ userQueryKeys_user `prefix_of` kq.1)) w))))).
  { unfold useLogoutMutation, logout_onSuccess, logout_mutationFn.
    js_unfold; simpl. rewrite Hw; simpl. rewrite Hw. reflexivity. }
  rewrite Hrun. unfold completion, world_after. cbn [fst snd].
  split; [reflexivity |]. split; [| split; [| split]].
  - intros key Hp. simpl. apply map_lookup_filter_None. right.
    intros q _ Hn. exact (Hn Hp).
  - reflexivity.
  - reflexivity.
  - simpl. by rewrite <- app_assoc.
Qed.

Lemma logout_outside_browser_witness :
  window no_window = false
  /\ completion (execute useLogoutMutation tt (Resolved (mkApiReply None)) no_window)
     = Throw (ReferenceError "window is not defined")
  /\ localStorage
       (world_after (execute useLogoutMutation tt (Resolved (mkApiReply None)) no_window))
       !! "auth_token" = Some "token".
Proof.
  split; [reflexivity |].
  destruct (logout_outside_browser no_window (mkApiReply None) eq_refl)
    as (Hc & _ & Hs & _).
  split; [exact Hc |]. rewrite Hs. reflexivity.
Defined.

(** ** Updates: what reaches the mirror, and how updates combine *)

Section MoreUpdate.
Context `{JSON}.

(** Begin and Apply write to the cache only. *)
Lemma update_onMutate_frame (updates : User) (w : World) :
  let applied := world_after (update_onMutate updates w) in
  window applied = window w
  /\ localStorage applied = localStorage w
  /\ location_href applied = location_href w
  /\ toasts applied = toasts w
  /\ console applied = console w
  /\ clock applied = clock w.
Proof.
  cbv zeta. rewrite update_onMutate_run. cbv zeta.
  by destruct (queryCache w !! userQueryKeys_profile ≫= state_data).
Qed.

(** The world a resolved update ends in. *)
Lemma update_resolved_world (w : World) (updates : User) (reply : ApiReply) :
  world_after (execute useUpdateUserMutation updates (Resolved reply) w)
  = with_toast (toast_success ("已更新 " +:+ pretty (size updates) +:+ " 个字段"))
      (with_localStorage
         (fun s =>
            match (fun p => updates ∪ p)
                    <$> (queryCache w !! userQueryKeys_profile ≫= state_data) with
            | Some current =>
                if window w then <["user_profile" := JSON_stringify current]> s else s
            | None => s
            end)
         (with_queryCache (alter invalidate userQueryKeys_profile)
            (world_after (update_onMutate updates w)))).
Proof.
  rewrite execute_update_resolved, update_onSuccess_run.
  rewrite update_onMutate_payload.
  destruct (update_onMutate_frame updates w) as (-> & _).
  reflexivity.
Qed.

Lemma update_resolved_payload (w : World) (updates : User) (reply : ApiReply) :
  queryCache (world_after (execute useUpdateUserMutation updates (Resolved reply) w))
    !! userQueryKeys_profile ≫= state_data
  = (fun p => updates ∪ p) <$> (queryCache w !! userQueryKeys_profile ≫= state_data).
Proof.
  rewrite update_resolved_world. world_simpl.
  by rewrite payload_alter_invalidate, update_onMutate_payload.
Qed.

Lemma update_resolved_storage (w : World) (updates : User) (reply : ApiReply) :
  localStorage (world_after (execute useUpdateUserMutation updates (Resolved reply) w))
  = match (fun p => updates ∪ p)
            <$> (queryCache w !! userQueryKeys_profile ≫= state_data) with
    | Some current =>
        if window w
        then <["user_profile" := JSON_stringify current]> (localStorage w)
        else localStorage w
    | None => localStorage w
    end.
Proof.
  rewrite update_resolved_world. world_simpl.
  destruct (update_onMutate_frame updates w) as (_ & -> & _).
  reflexivity.
Qed.

Lemma update_resolved_frame (w : World) (updates : User) (reply : ApiReply) :
  let done := world_after (execute useUpdateUserMutation updates (Resolved reply) w) in
  window done = window w
  /\ toasts done
     = (toasts w ++ [toast_success ("已更新 " +:+ pretty (size updates) +:+ " 个字段")])%list.
Proof.
  cbv zeta. rewrite update_resolved_world. world_simpl.
  destruct (update_onMutate_frame updates w) as (-> & _ & _ & -> & _).
  split; reflexivity.
Qed.

(** X2.  In a browser, with a profile cached, a successful update leaves in
    the mirror the text of the optimistic merge computed locally - the cached
    profile with the update laid over it - whatever the server answered; the
    cache holds the same merge, and no other persisted key is written. *)
Theorem successful_update_mirrors_merge (w : World) (updates p : User)
    (reply : ApiReply) :
  window w = true ->
  completion (getQueryData userQueryKeys_profile w) = Normal (Some p) ->
  let done := execute useUpdateUserMutation updates (Resolved reply) w in
  localStorage (world_after done) !! "user_profile"
  = Some (JSON_stringify (updates ∪ p))
  /\ completion (getQueryData userQueryKeys_profile (world_after done))
     = Normal (Some (updates ∪ p))
  /\ (forall key : string,
        key <> "user_profile" ->
        localStorage (world_after done) !! key = localStorage w !! key).
Proof.
  intros Hw Hp. apply cached_payload in Hp. cbv zeta.
  rewrite getQueryData_completion, update_resolved_payload, update_resolved_storage.
  rewrite Hp, Hw. cbn [fmap option_fmap option_map].
  split; [apply lookup_insert_eq |]. split; [reflexivity |].
  intros key Hk. by rewrite lookup_insert_ne.
Qed.

(** X4.  With no profile entry in the cache, a successful update has no local
    effect: the cache and the persisted store are as before - nothing is
    applied optimistically and nothing is mirrored - yet success is reported
    with the number of keys sent. *)
Theorem update_with_nothing_cached (w : World) (updates : User) (reply : ApiReply) :
  queryCache w !! userQueryKeys_profile = None ->
  let done := execute useUpdateUserMutation updates (Resolved reply) w in
  completion done = Normal reply
  /\ queryCache (world_after done) = queryCache w
  /\ localStorage (world_after done) = localStorage w
  /\ toasts (world_after done)
     = (toasts w ++ [toast_success ("已更新 " +:+ pretty (size updates) +:+ " 个字段")])%list.
Proof.
  intros Hq. cbv zeta.
  assert (Halter : forall f, alter f userQueryKeys_profile (queryCache w) = queryCache w).
  { intros f. apply map_eq. intros key.
    destruct (decide (userQueryKeys_profile = key)) as [<- | Hne].
    - by rewrite lookup_alter_eq, Hq.
    - by rewrite lookup_alter_ne. }
  split; [by rewrite execute_update_resolved |]. split; [| split].
  - rewrite update_resolved_world. world_simpl.
    rewrite update_onMutate_run, Hq. cbv zeta. cbn [mbind option_bind].
    unfold world_after. world_simpl. by rewrite !Halter.
  - rewrite update_resolved_storage, Hq. reflexivity.
  - apply update_resolved_frame.
Qed.

(** X5.  Two successful updates in a row leave the cache payload and the
    persisted store as one update with the second partial laid over the first
    would: on a field both carry, the later update wins. *)
Theorem consecutive_updates_compose (w : World) (u1 u2 : User) (r1 r2 r : ApiReply) :
  let first := execute useUpdateUserMutation u1 (Resolved r1) w in
  let second := execute useUpdateUserMutation u2 (Resolved r2) (world_after first) in
  let once := execute useUpdateUserMutation (u2 ∪ u1) (Resolved r) w in
  completion (getQueryData userQueryKeys_profile (world_after second))
  = completion (getQueryData userQueryKeys_profile (world_after once))
  /\ localStorage (world_after second) = localStorage (world_after once).
Proof.
  cbv zeta. split.
  - rewrite !getQueryData_completion, !update_resolved_payload.
    destruct (queryCache w !! userQueryKeys_profile ≫= state_data) as [p |];
      cbn [fmap option_fmap option_map]; [| reflexivity].
    by rewrite (assoc_L (∪)).
  - rewrite !update_resolved_storage, update_resolved_payload.
    destruct (update_resolved_frame w u1 r1) as (-> & _).
    destruct (queryCache w !! userQueryKeys_profile ≫= state_data) as [p |];
      cbn [fmap option_fmap option_map]; [| reflexivity].
    destruct (window w); [| reflexivity].
    by rewrite insert_insert_eq, (assoc_L (∪)).
Qed.

(** X6.  The number a successful update reports is the number of keys sent,
    not the number of fields changed: an update whose fields all carry the
    values the cached profile already has - the empty update among them -
    leaves the cached profile as it was and still reports its key count. *)
Theorem update_repeating_cached_values (w : World) (updates p : User)
    (reply : ApiReply) :
  completion (getQueryData userQueryKeys_profile w) = Normal (Some p) ->
  updates ⊆ p ->
  let done := execute useUpdateUserMutation updates (Resolved reply) w in
  completion (getQueryData userQueryKeys_profile (world_after done)) = Normal (Some p)
  /\ toasts (world_after done)
     = (toasts w ++ [toast_success ("已更新 " +:+ pretty (size updates) +:+ " 个字段")])%list.
Proof.
  intros Hp Hsub. apply cached_payload in Hp. cbv zeta. split.
  - rewrite getQueryData_completion, update_resolved_payload, Hp.
    cbn [fmap option_fmap option_map]. by rewrite (map_subseteq_union _ _ Hsub).
  - apply update_resolved_frame.
Qed.

(** The world a rejected update ends in. *)
Lemma update_rejected_world (w : World) (updates : User) (e : JsError) :
  world_after (execute useUpdateUserMutation updates (Rejected e) w)
  = with_toast (toast_error "更新失败，请重试")
      (with_console (console_error "更新用户信息失败:" e)
         match queryCache w !! userQueryKeys_profile ≫= state_data with
         | Some p =>
             with_queryCache
               (fun c => <[userQueryKeys_profile :=
                            setData (clock w) p (c !! userQueryKeys_profile)]> c)
               (world_after (update_onMutate updates w))
         | None => world_after (update_onMutate updates w)
         end).
Proof.
  rewrite execute_update_rejected, update_onError_run.
  destruct (update_onMutate_frame updates w) as (_ & _ & _ & _ & _ & ->).
  reflexivity.
Qed.

Lemma update_onMutate_other_entries (updates : User) (w : World) (key : QueryKey) :
  key <> userQueryKeys_profile ->
  queryCache (world_after (update_onMutate updates w)) !! key = queryCache w !! key.
Proof.
  intros Hk. rewrite update_onMutate_run. cbv zeta.
  destruct (queryCache w !! userQueryKeys_profile ≫= state_data);
    unfold world_after; world_simpl.
  - rewrite lookup_insert_ne by congruence. by rewrite lookup_alter_ne.
  - by rewrite lookup_alter_ne.
Qed.

(** X11.  A failed update writes to the profile cache entry only: the
    persisted store, the location and every other cache entry are as before;
    it logs one console error and shows one error toast. *)
Theorem failed_update_touches_cache_only (w : World) (updates : User) (e : JsError) :
  let done := execute useUpdateUserMutation updates (Rejected e) w in
  localStorage (world_after done) = localStorage w
  /\ location_href (world_after done) = location_href w
  /\ (forall key : QueryKey,
        key <> userQueryKeys_profile ->
        queryCache (world_after done) !! key = queryCache w !! key)
  /\ toasts (world_after done) = (toasts w ++ [toast_error "更新失败，请重试"])%list
  /\ console (world_after done)
     = (console w ++ [console_error "更新用户信息失败:" e])%list.
Proof.
  cbv zeta. rewrite update_rejected_world.
  destruct (update_onMutate_frame updates w) as (_ & Hs & Hl & Ht & Hc & _).
  pose proof (update_onMutate_other_entries updates w) as Hother.
  set (applied := world_after (update_onMutate updates w)) in *.
  destruct (queryCache w !! userQueryKeys_profile ≫= state_data) as [p |];
    world_simpl; rewrite ?Hs, ?Hl, ?Ht, ?Hc;
    (split; [reflexivity |]); (split; [reflexivity |]);
    (split; [| split; reflexivity]).
  - intros key Hk. rewrite lookup_insert_ne by congruence. by apply Hother.
  - exact Hother.
Qed.

(** X7.  Two updates in flight at once: the second begins on top of the first's
    optimistic value; when the first then fails, its rollback puts back its
    own snapshot and with it drops the second update's optimistic fields from
    the cache; when the second then succeeds, what it mirrors (in a browser)
    is that rolled-back profile, without the fields it has just sent. *)
Theorem overlapping_rollback_drops_later_update (w : World) (p u1 u2 : User)
    (e : JsError) (r2 : ApiReply) :
  window w = true ->
  completion (getQueryData userQueryKeys_profile w) = Normal (Some p) ->
  let begun1 := update_onMutate u1 w in
  let begun2 := update_onMutate u2 (world_after begun1) in
  let failed1 :=
    update_onError e u1 (Some {| previousUser := Some p |}) (world_after begun2) in
  let done2 :=
    update_onSuccess r2 u2 {| previousUser := Some (u1 ∪ p) |} (world_after failed1) in
  completion begun1 = Normal {| previousUser := Some p |}
  /\ completion begun2 = Normal {| previousUser := Some (u1 ∪ p) |}
  /\ completion (getQueryData userQueryKeys_profile (world_after begun2))
     = Normal (Some (u2 ∪ (u1 ∪ p)))
  /\ completion (getQueryData userQueryKeys_profile (world_after failed1))
     = Normal (Some p)
  /\ completion (getQueryData userQueryKeys_profile (world_after done2))
     = Normal (Some p)
  /\ localStorage (world_after done2) !! "user_profile" = Some (JSON_stringify p).
Proof.
  intros Hw Hp. apply cached_payload in Hp. cbv zeta.
  pose proof (update_onMutate_payload u1 w) as Hp1. rewrite Hp in Hp1.
  cbn [fmap option_fmap option_map] in Hp1.
  pose proof (update_onMutate_frame u1 w) as (Hw1 & _). rewrite Hw in Hw1.
  set (w1 := world_after (update_onMutate u1 w)) in *.
  pose proof (update_onMutate_payload u2 w1) as Hp2. rewrite Hp1 in Hp2.
  cbn [fmap option_fmap option_map] in Hp2.
  pose proof (update_onMutate_frame u2 w1) as (Hw2 & _). rewrite Hw1 in Hw2.
  set (w2 := world_after (update_onMutate u2 w1)) in *.
  split; [by rewrite update_onMutate_context, Hp |].
  split; [by rewrite update_onMutate_context, Hp1 |].
  split; [by rewrite getQueryData_completion, Hp2 |].
  rewrite update_onError_run. cbn [mbind option_bind previousUser].
  assert (Hpair : forall (c : Completion unit) (x : World), world_after (c, x) = x)
    by reflexivity.
  rewrite !Hpair. clear Hpair.
  set (w3 := with_toast _ _).
  assert (Hp3 : queryCache w3 !! userQueryKeys_profile ≫= state_data = Some p).
  { subst w3. world_simpl. by rewrite lookup_insert_eq. }
  assert (Hw3 : window w3 = true) by exact Hw2.
  split; [by rewrite getQueryData_completion, Hp3 |].
  rewrite update_onSuccess_run, Hp3, Hw3. unfold world_after. world_simpl.
  split.
  - by rewrite getQueryData_completion; world_simpl;
      rewrite payload_alter_invalidate, Hp3.
  - apply lookup_insert_eq.
Qed.

End MoreUpdate.

Lemma successful_update_mirrors_merge_witness :
  window signed_in = true
  /\ completion (getQueryData userQueryKeys_profile signed_in) = Normal (Some bob)
  /\ localStorage
       (world_after
          (execute (@useUpdateUserMutation flat_JSON) alice_update
             (Resolved (mkApiReply None)) signed_in))
       !! "user_profile"
     = Some (flat_stringify (alice_update ∪ bob)).
Proof.
  split; [reflexivity |]. split; [reflexivity |].
  exact (proj1 (successful_update_mirrors_merge (H := flat_JSON) signed_in alice_update
                  bob (mkApiReply None) eq_refl eq_refl)).
Defined.

Lemma update_with_nothing_cached_witness :
  queryCache cold_start !! userQueryKeys_profile = None
  /\ queryCache
       (world_after
          (execute (@useUpdateUserMutation flat_JSON) alice_update
             (Resolved (mkApiReply None)) cold_start))
     = queryCache cold_start.
Proof.
  split; [reflexivity |].
  exact (proj1 (proj2 (update_with_nothing_cached (H := flat_JSON) cold_start
                         alice_update (mkApiReply None) eq_refl))).
Defined.

Lemma update_repeating_cached_values_witness :
  completion (getQueryData userQueryKeys_profile signed_in) = Normal (Some bob)
  /\ (<["name" := JStr "Bob"]> ∅ : User) ⊆ bob
  /\ completion
       (getQueryData userQueryKeys_profile
          (world_after
             (execute (@useUpdateUserMutation flat_JSON) (<["name" := JStr "Bob"]> ∅)
                (Resolved (mkApiReply None)) signed_in)))
     = Normal (Some bob)
  /\ toasts
       (world_after
          (execute (@useUpdateUserMutation flat_JSON) (<["name" := JStr "Bob"]> ∅)
             (Resolved (mkApiReply None)) signed_in))
     = [toast_success "已更新 1 个字段"].
Proof.
  assert (Hsub : (<["name" := JStr "Bob"]> ∅ : User) ⊆ bob)
    by (apply insert_mono, map_empty_subseteq).
  split; [reflexivity |]. split; [exact Hsub |].
  exact (update_repeating_cached_values (H := flat_JSON) signed_in
           (<["name" := JStr "Bob"]> ∅) bob (mkApiReply None) eq_refl Hsub).
Defined.

Lemma overlapping_rollback_drops_later_update_witness :
  window signed_in = true
  /\ completion (getQueryData userQueryKeys_profile signed_in) = Normal (Some bob)
  /\ completion
       (getQueryData userQueryKeys_profile
          (world_after
             (update_onError (Error "Request failed") (<["email" := JStr "bob@y.org"]> ∅)
                (Some {| previousUser := Some bob |})
                (world_after
                   (update_onMutate alice_update
                      (world_after
                         (update_onMutate (<["email" := JStr "bob@y.org"]> ∅)
                            signed_in)))))))
     = Normal (Some bob).
Proof.
  split; [reflexivity |]. split; [reflexivity |].
  exact (proj1 (proj2 (proj2 (proj2
    (overlapping_rollback_drops_later_update (H := flat_JSON) signed_in bob
       (<["email" := JStr "bob@y.org"]> ∅) alice_update (Error "Request failed")
       (mkApiReply None) eq_refl eq_refl))))).
Defined.

(** ** The mirror: what a read of it gives back *)

Section MoreMirror.
Context `{JSON}.

Lemma queryFn_success_world (w : World) (r : ApiResult) (user : User) :
  completion (queryFn (Resolved r) w) = Normal user ->
  world_after (queryFn (Resolved r) w)
  = if window w
    then with_localStorage (insert "user_profile" (JSON_stringify user)) w
    else w.
Proof.
  rewrite queryFn_run. unfold completion, world_after.
  destruct (truthy (error r)); [intros [=] |].
  destruct (data r) as [[[user' |]] |]; cbn [fst snd]; intros [=].
  by subst.
Qed.

(** X1.  In a browser, once a fetch has succeeded the profile can be read back
    from the mirror without the cache: after the whole query cache is dropped
    the cache read gives nothing, while [getLocalUserData] returns what
    [JSON.parse] makes of the text [JSON.stringify] gave the fetched profile,
    and changes nothing. *)
Theorem fetched_profile_read_back (w : World) (r : ApiResult) (user : User) (v : Json) :
  window w = true ->
  completion (queryFn (Resolved r) w) = Normal user ->
  JSON_stringify user <> "" ->
  JSON_parse (JSON_stringify user) = Some v ->
  let fetched := world_after (queryFn (Resolved r) w) in
  let dropped := with_queryCache (fun _ => ∅) fetched in
  completion (getQueryData userQueryKeys_profile dropped) = Normal None
  /\ getLocalUserData dropped = (Normal (Some v), dropped).
Proof.
  intros Hw Hdone Hne Hparse. cbv zeta.
  rewrite (queryFn_success_world w r user Hdone), Hw.
  split; [reflexivity |].
  rewrite getLocalUserData_run. world_simpl. rewrite Hw, lookup_insert_eq.
  apply String.eqb_neq in Hne. by rewrite Hne, Hparse.
Qed.

(** X8.  [getLocalUserData] only reads: whatever is stored, the cache, the
    persisted store, the location and the toasts are as before.  In a browser
    a stored text that is not empty and that [JSON.parse] accepts is returned
    as parsed, whatever value it is - the result is not checked to be a
    profile - and then the console is as before too. *)
Theorem getLocalUserData_reads_only (w : World) :
  let done := getLocalUserData w in
  queryCache (world_after done) = queryCache w
  /\ localStorage (world_after done) = localStorage w
  /\ location_href (world_after done) = location_href w
  /\ toasts (world_after done) = toasts w
  /\ (forall (text : string) (v : Json),
        window w = true ->
        localStorage w !! "user_profile" = Some text ->
        text <> "" ->
        JSON_parse text = Some v ->
        done = (Normal (Some v), w)).
Proof.
  cbv zeta. rewrite getLocalUserData_run.
  split; [| split; [| split; [| split]]].
  1-4: destruct (window w); [| reflexivity];
       destruct (localStorage w !! "user_profile") as [text |]; [| reflexivity];
       destruct (String.eqb text ""); [reflexivity |];
       destruct (JSON_parse text); reflexivity.
  intros text v -> -> Hne Hparse.
  apply String.eqb_neq in Hne. by rewrite Hne, Hparse.
Qed.

(** X10.  In a browser, after a logout whose remote call resolved neither
    store gives a profile back: the cache read returns nothing and
    [getLocalUserData] returns [undefined], without a warning. *)
Theorem logout_hides_profile (w : World) (r : ApiReply) :
  window w = true ->
  let after := world_after (execute useLogoutMutation tt (Resolved r) w) in
  completion (getQueryData userQueryKeys_profile after) = Normal None
  /\ getLocalUserData after = (Normal None, after).
Proof.
  intros Hw. cbv zeta. rewrite (logout_resolved_run w r Hw).
  unfold world_after. cbn [snd]. split.
  - rewrite getQueryData_completion.
    rewrite (logged_out_purged w userQueryKeys_profile); [reflexivity |].
    by exists ["profile"].
  - rewrite getLocalUserData_run.
    destruct (logged_out_keys w) as (-> & _).
    by destruct (window (logged_out w)).
Qed.

End MoreMirror.

Lemma fetched_profile_read_back_witness :
  window cold_start = true
  /\ completion
       (queryFn (H := flat_JSON)
          (Resolved (mkApiResult (Some (mkApiBody (Some bob))) None)) cold_start)
     = Normal bob
  /\ flat_stringify bob <> ""
  /\ flat_parse (flat_stringify bob) = Some (JsonObject bob)
  /\ completion
       (getLocalUserData (H := flat_JSON)
          (with_queryCache (fun _ => ∅)
             (world_after
                (queryFn (H := flat_JSON)
                   (Resolved (mkApiResult (Some (mkApiBody (Some bob))) None))
                   cold_start))))
     = Normal (Some (JsonObject bob)).
Proof.
  assert (Hne : flat_stringify bob <> "") by (by vm_compute).
  assert (Hparse : flat_parse (flat_stringify bob) = Some (JsonObject bob))
    by (vm_compute; reflexivity).
  split; [reflexivity |]. split; [reflexivity |].
  split; [exact Hne |]. split; [exact Hparse |].
  rewrite (proj2 (fetched_profile_read_back (H := flat_JSON) cold_start
                    (mkApiResult (Some (mkApiBody (Some bob))) None) bob (JsonObject bob)
                    eq_refl eq_refl Hne Hparse)).
  reflexivity.
Defined.

Lemma getLocalUserData_reads_only_witness :
  window (mirror_holds "null") = true
  /\ localStorage (mirror_holds "null") !! "user_profile" = Some "null"
  /\ flat_parse "null" = Some (JsonScalar JNull)
  /\ getLocalUserData (H := flat_JSON) (mirror_holds "null")
     = (Normal (Some (JsonScalar JNull)), mirror_holds "null").
Proof.
  split; [reflexivity |]. split; [reflexivity |]. split; [reflexivity |].
  refine (proj2 (proj2 (proj2 (proj2
    (getLocalUserData_reads_only (H := flat_JSON) (mirror_holds "null")))))
      "null" (JsonScalar JNull) eq_refl eq_refl _ eq_refl).
  discriminate.
Defined.

Lemma logout_hides_profile_witness :
  window signed_in = true
  /\ completion
       (getQueryData userQueryKeys_profile
          (world_after (execute useLogoutMutation tt (Resolved (mkApiReply None)) signed_in)))
     = Normal None.
Proof.
  split; [reflexivity |].
  exact (proj1 (logout_hides_profile (H := flat_JSON) signed_in (mkApiReply None) eq_refl)).
Defined.

(** ** An update that settles after the logout *)

(** X12.  In a browser, an update begun before a logout and failing after it:
    the logout purges the profile from the cache and clears the mirror, and
    the rollback of the update then writes the update's snapshot back, so the
    cache read returns the profile of the user who has logged out, while the
    mirror stays cleared. *)
Theorem rollback_after_logout_restores_profile (w : World) (p updates : User)
    (e : JsError) (r : ApiReply) :
  window w = true ->
  completion (getQueryData userQueryKeys_profile w) = Normal (Some p) ->
  let begun := update_onMutate updates w in
  let left := execute useLogoutMutation tt (Resolved r) (world_after begun) in
  let failed :=
    update_onError e updates (Some {| previousUser := Some p |}) (world_after left) in
  completion begun = Normal {| previousUser := Some p |}
  /\ completion (getQueryData userQueryKeys_profile (world_after left)) = Normal None
  /\ completion (getQueryData userQueryKeys_profile (world_after failed))
     = Normal (Some p)
  /\ localStorage (world_after failed) !! "user_profile" = None.
Proof.
  intros Hw Hp. apply cached_payload in Hp. cbv zeta.
  split; [by rewrite update_onMutate_context, Hp |].
  assert (Hw1 : window (world_after (update_onMutate updates w)) = true).
  { rewrite update_onMutate_run. cbv zeta. rewrite Hp. exact Hw. }
  set (w1 := world_after (update_onMutate updates w)) in *.
  rewrite (logout_resolved_run w1 r Hw1).
  assert (Hpair : forall (A : Type) (c : Completion A) (x : World),
            world_after (c, x) = x) by reflexivity.
  rewrite !Hpair. split.
  - rewrite getQueryData_completion.
    rewrite (logged_out_purged w1 userQueryKeys_profile); [reflexivity |].
    by exists ["profile"].
  - rewrite update_onError_run, !Hpair. cbn [mbind option_bind previousUser].
    split.
    + rewrite getQueryData_completion. world_simpl. by rewrite lookup_insert_eq.
    + world_simpl. apply (logged_out_keys w1).
Qed.

Lemma rollback_after_logout_restores_profile_witness :
  window signed_in = true
  /\ completion (getQueryData userQueryKeys_profile signed_in) = Normal (Some bob)
  /\ completion
       (getQueryData userQueryKeys_profile
          (world_after
             (update_onError (Error "Request failed") alice_update
                (Some {| previousUser := Some bob |})
                (world_after
                   (execute useLogoutMutation tt (Resolved (mkApiReply None))
                      (world_after (update_onMutate alice_update signed_in)))))))
     = Normal (Some bob).
Proof.
  split; [reflexivity |]. split; [reflexivity |].
  exact (proj1 (proj2 (proj2
    (rollback_after_logout_restores_profile signed_in bob alice_update
       (Error "Request failed") (mkApiReply None) eq_refl eq_refl)))).
Defined.
